(** * Pair-wise distances: the kernels of [Pairs_Fortran.ipynb]

    The notebook computes the upper triangle of the Euclidean distance
    matrix of [N] points in three dimensions, packed into a flat vector,
    twice: [r_ij_cython] (a Cython extension) and [getrij] (a Fortran
    subroutine called through the Python wrapper [r_ij_fortran]).

    The embedding keeps the shape of the source:
    - C [int] and Fortran [integer] variables are 32-bit: a value is a [Z]
      and every arithmetic operation on them is followed by [wrap], the
      two's-complement wrap-around of the compiled code (loop counters run
      below [N] and need none);
    - a [double] is an element of a type carrying the five operations the
      kernels use ([Scalar]), so that the kernels run on symbolic inputs;
      the claims read it at the real numbers;
    - the output buffer is a list updated in place; a store outside the
      buffer is a fault, and [np.zeros] of a negative size raises;
    - the loops are folds over the index lists of [range] and of [do].
      The outer loop of [r_ij_cython] is a [prange], whose temporaries are
      private to an iteration: besides the source order, the kernel can be
      run under any order of the iterations. The outer loop of [getrij] is
      an OpenMP loop whose temporaries are shared: [getrij] and
      [r_ij_fortran] are the run by one thread, and [getrij_omp] the run
      by several. The unused [dim] of [r_ij_cython] is left out. *)

From Stdlib Require Import ZArith List Bool Lia Lra QArith Permutation Reals.
Import ListNotations.

Local Open Scope Z_scope.

(** ** 32-bit integers *)

Module Int32.

Definition int_min : Z := - 2 ^ 31.
Definition int_max : Z := 2 ^ 31 - 1.

(** Two's-complement reduction of an integer to the range of [int]. *)
Definition wrap (z : Z) : Z := (z + 2 ^ 31) mod 2 ^ 32 - 2 ^ 31.

Definition in_range (z : Z) : Prop := int_min <= z <= int_max.

Definition add (a b : Z) : Z := wrap (a + b).
Definition sub (a b : Z) : Z := wrap (a - b).
Definition mul (a b : Z) : Z := wrap (a * b).

(** Fortran integer division truncates towards zero. *)
Definition div (a b : Z) : Z := wrap (Z.quot a b).

(** Conversion to [int] of a double holding the integer [z]: a value
    outside the range of [int] comes out as [int_min], which is what the
    conversion instruction of the compiled code returns. *)
Definition of_double (z : Z) : Z :=
  if (int_min <=? z) && (z <=? int_max) then z else int_min.

End Int32.

(** ** Results of fallible code *)

Inductive error : Type :=
| ValueError      (* np.zeros: negative dimensions are not allowed *)
| OutOfBounds.    (* a store outside the buffer (no bounds check in either kernel) *)

Inductive result (A : Type) : Type :=
| Ok (a : A)
| Err (e : error).

Arguments Ok {A} a.
Arguments Err {A} e.

Definition bind {A B : Type} (m : result A) (f : A -> result B) : result B :=
  match m with
  | Ok a => f a
  | Err e => Err e
  end.

Notation "x <- m ;; k" := (bind m (fun x => k))
  (at level 61, m at next level, right associativity).

(** A [for] loop whose body updates the state [s] and may fail. *)
Fixpoint for_each {I S : Type} (body : S -> I -> result S) (its : list I) (s : S)
  : result S :=
  match its with
  | [] => Ok s
  | i :: its' => s' <- body s i ;; for_each body its' s'
  end.

(** ** Index ranges *)

Fixpoint count_from (a : Z) (n : nat) : list Z :=
  match n with
  | O => []
  | S n' => a :: count_from (a + 1) n'
  end.

(** Python [range(a, b)]: a, a+1, ..., b-1. *)
Definition range (a b : Z) : list Z := count_from a (Z.to_nat (b - a)).

(** Fortran [do v = a, b]: a, a+1, ..., b. *)
Definition do_range (a b : Z) : list Z := count_from a (Z.to_nat (b - a + 1)).

(** ** The packed index

    [i * (N - 1) - i * (i + 1) / 2 + j - 1], the index of the spec, over
    the integers. What the kernels compute from the same expression in
    32-bit integers is [l_cython] and [l_fortran]. *)
Definition linindex (i j N : Z) : Z := i * (N - 1) - i * (i + 1) / 2 + j - 1.

(** The pairs [(i, j)], [0 <= i < j < N], in the order of the nested loops. *)
Definition pairs (N : Z) : list (Z * Z) :=
  flat_map (fun i => map (fun j => (i, j)) (range (i + 1) N)) (range 0 N).

(** ** Buffers *)

Section Buffer.

Context {F : Type}.

Fixpoint upd (n : nat) (v : F) (r : list F) {struct r} : list F :=
  match r, n with
  | [], _ => []
  | _ :: r', O => v :: r'
  | x :: r', S n' => x :: upd n' v r'
  end.

(** [r[l] = v] on a 0-based buffer. *)
Definition store (r : list F) (l : Z) (v : F) : result (list F) :=
  if (0 <=? l) && (l <? Z.of_nat (length r))
  then Ok (upd (Z.to_nat l) v r)
  else Err OutOfBounds.

(** [r(l) = v] on a 1-based Fortran array. *)
Definition store1 (r : list F) (l : Z) (v : F) : result (list F) :=
  store r (l - 1) v.

(** [np.zeros(M)] *)
Definition np_zeros (zero : F) (M : Z) : result (list F) :=
  if M <? 0 then Err ValueError else Ok (repeat zero (Z.to_nat M)).

End Buffer.

(** ** Scalars: the operations of [double] the kernels use *)

Class Scalar (F : Type) : Type := {
  zero : F;
  add : F -> F -> F;
  sub : F -> F -> F;
  mul : F -> F -> F;
  sqrt : F -> F
}.

(** The real numbers: a [double] read as the number it stands for, without
    rounding, underflow or overflow. *)
#[export] Instance R_Scalar : Scalar R := {|
  zero := 0%R;
  add := Rplus;
  sub := Rminus;
  mul := Rmult;
  sqrt := R_sqrt.sqrt
|}.

(** ** Index arithmetic carried out in [double]

    In [r_ij_cython] the operator [/] is true division: [i * (i + 1) / 2]
    and the sum around it are doubles, and [int(...)] truncates. All values
    involved are halves of integers below 2^34 in magnitude, on which double
    arithmetic is exact; they are represented as rationals. *)

Definition of_int (z : Z) : Q := inject_Z z.

Definition trunc (q : Q) : Z := Z.quot (Qnum q) (Zpos (Qden q)).

(** ** The Cython kernel *)

Section Kernels.

Context {F : Type} {S : Scalar F}.

(** A matrix is the list of its rows. *)
Definition matrix : Type := list (list F).

(** [coords.shape[0]] *)
Definition shape0 (coords : matrix) : Z := Z.of_nat (length coords).

(** [coords[i, k]]. The kernel reads columns 0 to 2 without a bounds
    check: this is the entry read when row [i] has at least three columns;
    on a shorter row the compiled code reads adjacent memory, and the
    statements about values are made for rows of three columns. *)
Definition get (coords : matrix) (i k : Z) : F :=
  nth (Z.to_nat k) (nth (Z.to_nat i) coords []) zero.

(** [coords.ravel()] *)
Definition ravel (coords : matrix) : list F := concat coords.

(** [x ** 2] *)
Definition sq (x : F) : F := mul x x.

(** line 85: [int((N*N-N)/2)] *)
Definition size_cython (N : Z) : Z :=
  trunc (of_int (Int32.sub (Int32.mul N N) N) / 2).

(** line 88: [int(i * (N - 1) - i * (i + 1) / 2 + j - 1)], assigned to the
    [int] variable [l]. *)
Definition l_cython (i j N : Z) : Z :=
  Int32.of_double
    (trunc (of_int (Int32.mul i (Int32.sub N 1))
            - of_int (Int32.mul i (Int32.add i 1)) / 2
            + of_int j - 1)).

(** lines 89-91: the sum of the squared differences of rows [i] and [j]. *)
Definition tmp_cython (coords : matrix) (i j : Z) : F :=
  fold_left
    (fun tmp k => add tmp (sq (sub (get coords i k) (get coords j k))))
    (range 0 3) zero.

(** lines 88-92: the body of the inner loop. *)
Definition body_cython (coords : matrix) (N i : Z) (r : list F) (j : Z)
  : result (list F) :=
  let l := l_cython i j N in
  let tmp := tmp_cython coords i j in
  store r l (sqrt tmp).

(** lines 87-92: [for j in range(i+1, N)]. *)
Definition row_cython (coords : matrix) (N : Z) (r : list F) (i : Z)
  : result (list F) :=
  for_each (body_cython coords N i) (range (i + 1) N) r.

(** [r_ij_cython] with the iterations of [prange(N)] run in the order
    [sched]. *)
Definition r_ij_cython_sched (sched : list Z) (coords : matrix)
  : result (list F) :=
  let N := Int32.wrap (shape0 coords) in
  r <- np_zeros zero (size_cython N) ;;
  for_each (row_cython coords N) sched r.

(** [r_ij_cython], iterations in increasing order. *)
Definition r_ij_cython (coords : matrix) : result (list F) :=
  r_ij_cython_sched (range 0 (Int32.wrap (shape0 coords))) coords.

(** ** The Fortran kernel *)

(** [coords(idx)] on the flattened, 1-based array. *)
Definition get1 (coords : list F) (idx : Z) : F :=
  nth (Z.to_nat (idx - 1)) coords zero.

(** line 172: [1 + (i * (N - 1) - i * (i + 1) / 2 + j - 1)] *)
Definition l_fortran (i j N : Z) : Z :=
  Int32.add 1
    (Int32.sub
       (Int32.add
          (Int32.sub (Int32.mul i (Int32.sub N 1))
                     (Int32.div (Int32.mul i (Int32.add i 1)) 2))
          j)
       1).

(** lines 168-171 *)
Definition tmp_fortran (coords : list F) (ii jj : Z) : F :=
  fold_left
    (fun tmp k =>
       add tmp (sq (sub (get1 coords (Int32.add ii k))
                        (get1 coords (Int32.add jj k)))))
    (do_range 1 3) zero.

(** lines 167-173: the body of the inner loop. *)
Definition body_getrij (coords : list F) (N i ii : Z) (r : list F) (j : Z)
  : result (list F) :=
  let jj := Int32.mul j 3 in
  let tmp := tmp_fortran coords ii jj in
  let l := l_fortran i j N in
  store1 r l (sqrt tmp).

(** lines 165-174: [do j = i + 1, N-1]. *)
Definition row_getrij (coords : list F) (N : Z) (r : list F) (i : Z)
  : result (list F) :=
  let ii := Int32.mul i 3 in
  for_each (body_getrij coords N i ii)
           (do_range (Int32.add i 1) (Int32.sub N 1)) r.

(** [getrij] with the outer iterations [sched] run one after another, each
    to its end, as one thread runs them. The array [r] is [intent(inout)]:
    the updated array is the result. [M] only dimensions [r]. *)
Definition getrij_sched (sched : list Z) (coords r : list F) (N M : Z)
  : result (list F) :=
  for_each (row_getrij coords N) sched r.

(** [getrij] run by one thread: [do i = 0, N-1]. *)
Definition getrij (coords r : list F) (N M : Z) : result (list F) :=
  getrij_sched (do_range 0 (Int32.sub N 1)) coords r N M.

(** The wrapper: [N] and [M] are Python integers, converted to [int] at
    the call. [r_ij_fortran_sched] and [r_ij_fortran] call [getrij_sched]
    and [getrij], the runs by one thread. *)
Definition r_ij_fortran_sched (sched : list Z) (coords : matrix)
  : result (list F) :=
  let N := shape0 coords in
  let M := (N * N - N) / 2 in
  r <- np_zeros zero M ;;
  getrij_sched sched (ravel coords) r (Int32.wrap N) (Int32.wrap M).

Definition r_ij_fortran (coords : matrix) : result (list F) :=
  let N := shape0 coords in
  let M := (N * N - N) / 2 in
  r <- np_zeros zero M ;;
  getrij (ravel coords) r (Int32.wrap N) (Int32.wrap M).

End Kernels.

Arguments matrix : clear implicits.

(** ** [getrij] run by several threads

    The directive [!$OMP PARALLEL DO] of line 163 has no [PRIVATE] clause:
    the loop variables [i], [j], [k] are private to a thread, while [ii],
    [jj], [tmp], [l] and the array [r] are shared by all threads. A thread
    runs the statements of its iterations in order; an execution of the
    loop interleaves the statements of the threads. *)

Section Threads.

Context {F : Type} {S : Scalar F}.

(** The shared variables. [sh_log] is a ghost: the stores [r(l) = ...]
    performed so far, latest first, each with the pair [(i, j)] of the
    iteration that issued it and the index [l] it went to. *)
Record shared : Type := {
  sh_ii : Z;
  sh_jj : Z;
  sh_tmp : F;
  sh_l : Z;
  sh_r : list F;
  sh_log : list (Z * Z * Z)
}.

(** The statements of the loop body, with the values of the private loop
    variables of the thread that runs them. *)
Inductive stmt : Type :=
| St_ii (i : Z)      (* line 165: ii = i * 3 *)
| St_jj (j : Z)      (* line 167: jj = j * 3 *)
| St_tmp0            (* line 168: tmp = 0.0 *)
| St_tmp (k : Z)     (* line 170: tmp = tmp + (coords(ii+k) - coords(jj+k)) ** 2 *)
| St_l (i j : Z)     (* line 172: l = 1 + (i * (N - 1) - i * (i + 1) / 2 + j - 1) *)
| St_r (i j : Z).    (* line 173: r(l) = sqrt(tmp) *)

Definition exec (coords : list F) (N : Z) (s : shared) (c : stmt) : result shared :=
  match c with
  | St_ii i =>
      Ok {| sh_ii := Int32.mul i 3; sh_jj := sh_jj s; sh_tmp := sh_tmp s;
            sh_l := sh_l s; sh_r := sh_r s; sh_log := sh_log s |}
  | St_jj j =>
      Ok {| sh_ii := sh_ii s; sh_jj := Int32.mul j 3; sh_tmp := sh_tmp s;
            sh_l := sh_l s; sh_r := sh_r s; sh_log := sh_log s |}
  | St_tmp0 =>
      Ok {| sh_ii := sh_ii s; sh_jj := sh_jj s; sh_tmp := zero;
            sh_l := sh_l s; sh_r := sh_r s; sh_log := sh_log s |}
  | St_tmp k =>
      Ok {| sh_ii := sh_ii s; sh_jj := sh_jj s;
            sh_tmp := add (sh_tmp s)
                          (sq (sub (get1 coords (Int32.add (sh_ii s) k))
                                   (get1 coords (Int32.add (sh_jj s) k))));
            sh_l := sh_l s; sh_r := sh_r s; sh_log := sh_log s |}
  | St_l i j =>
      Ok {| sh_ii := sh_ii s; sh_jj := sh_jj s; sh_tmp := sh_tmp s;
            sh_l := l_fortran i j N; sh_r := sh_r s; sh_log := sh_log s |}
  | St_r i j =>
      r' <- store1 (sh_r s) (sh_l s) (sqrt (sh_tmp s)) ;;
      Ok {| sh_ii := sh_ii s; sh_jj := sh_jj s; sh_tmp := sh_tmp s;
            sh_l := sh_l s; sh_r := r'; sh_log := (i, j, sh_l s) :: sh_log s |}
  end.

(** lines 167-173, for one [j]. *)
Definition pair_stmts (i j : Z) : list stmt :=
  [St_jj j; St_tmp0] ++ map St_tmp (do_range 1 3) ++ [St_l i j; St_r i j].

(** lines 165-174, for one [i]. *)
Definition iteration_stmts (N i : Z) : list stmt :=
  St_ii i :: flat_map (pair_stmts i) (do_range (Int32.add i 1) (Int32.sub N 1)).

(** The statements of a thread that is given the iterations [its]. *)
Definition thread_stmts (N : Z) (its : list Z) : list stmt :=
  flat_map (iteration_stmts N) its.

(** The statements of the threads in the order in which they run: each
    choice names the thread that runs its next statement (a choice of a
    thread that has finished is skipped); what is left when the choices
    end runs thread after thread. *)
Fixpoint interleave {A : Type} (choices : list nat) (threads : list (list A))
  : list A :=
  match choices with
  | [] => concat threads
  | n :: choices' =>
      match nth n threads [] with
      | a :: rest => a :: interleave choices' (upd n rest threads)
      | [] => interleave choices' threads
      end
  end.

(** [getrij] with the iterations handed out to the threads as [threads]
    says and the statements interleaved as [choices] says, started with
    the shared variables [s]. *)
Definition getrij_omp (threads : list (list Z)) (choices : list nat)
           (coords : list F) (N : Z) (s : shared) : result shared :=
  for_each (exec coords N) (interleave choices (map (thread_stmts N) threads)) s.

(** The shared variables on entry to the loop: [l = 0] (line 162) and the
    array of the caller; [ii], [jj] and [tmp] are undefined there, and
    every thread writes them before it reads them. *)
Definition on_entry (r : list F) : shared :=
  {| sh_ii := 0; sh_jj := 0; sh_tmp := zero; sh_l := 0; sh_r := r; sh_log := [] |}.

(** The wrapper [r_ij_fortran] around that run. *)
Definition r_ij_fortran_omp (threads : list (list Z)) (choices : list nat)
           (coords : matrix F) : result (list F) :=
  let N := shape0 coords in
  let M := (N * N - N) / 2 in
  r <- np_zeros zero M ;;
  s <- getrij_omp threads choices (ravel coords) (Int32.wrap N) (on_entry r) ;;
  Ok (sh_r s).

End Threads.

Arguments shared : clear implicits.

(** ** Definitions the statements use *)

(** The slot of the first pair of row [i]. *)
Definition row_start (i N : Z) : Z := linindex i (i + 1) N.

Section Statements.

Context {F : Type} {S : Scalar F}.

(** One store [r[fst w] = snd w]. *)
Definition write (r : list F) (w : Z * F) : result (list F) :=
  store r (fst w) (snd w).

(** Every row has three columns. *)
Definition is_Nx3 (coords : matrix F) : Prop :=
  Forall (fun row : list F => length row = 3%nat) coords.

(** What is stored for the pair [(i, j)]. *)
Definition value (coords : matrix F) (p : Z * Z) : F :=
  sqrt (tmp_cython coords (fst p) (snd p)).

(** The values of all pairs, in the order of the loops. *)
Definition packed (coords : matrix F) : list F :=
  map (value coords) (pairs (shape0 coords)).

(** [sqrt] of the sum the inner [k] loop accumulates for two rows. *)
Definition d3 (a0 a1 a2 b0 b1 b2 : F) : F :=
  sqrt (add (add (add zero (sq (sub a0 b0))) (sq (sub a1 b1))) (sq (sub a2 b2))).

End Statements.

(** The distance of rows [i] and [j]: the square root of the sum, over the
    three axes, of the squared differences. *)
Definition distance (coords : matrix R) (i j : Z) : R :=
  R_sqrt.sqrt ((get coords i 0 - get coords j 0) ^ 2
               + (get coords i 1 - get coords j 1) ^ 2
               + (get coords i 2 - get coords j 2) ^ 2)%R.

(** The slots [linindex] gives to the pairs of row [i]. *)
Definition slots (i N : Z) : list Z :=
  map (fun j => linindex i j N) (range (i + 1) N).

(** Reference: a brute-force double loop over all rows, one distance for
    every ordered pair, with no packing and no parallel loop. *)
Definition sum_sq_diff (p q : list R) : R :=
  fold_right Rplus 0%R (map (fun ab => ((fst ab - snd ab) ^ 2)%R) (combine p q)).

Definition reference_distance (p q : list R) : R := R_sqrt.sqrt (sum_sq_diff p q).

Definition reference (coords : matrix R) : list (list R) :=
  map (fun p => map (fun q => reference_distance p q) coords) coords.

(** The three points of the spec's scenario. *)
Definition three_points : matrix R :=
  [[0; 0; 0]; [1; 0; 0]; [0; 1; 0]]%R.

(** 46342 rows, the least number of rows for which [N*N - N] overflows. *)
Definition rows_46342 : matrix R := repeat [0; 0; 0]%R (Z.to_nat 46342).

(** Symbolic scalars: the free terms over the five operations, the entries
    of the input being variables. *)
Inductive term : Type :=
| TVar (n : nat)
| TZero
| TAdd (a b : term)
| TSub (a b : term)
| TMul (a b : term)
| TSqrt (a : term).

#[export] Instance term_Scalar : Scalar term := {|
  zero := TZero;
  add := TAdd;
  sub := TSub;
  mul := TMul;
  sqrt := TSqrt
|}.

(** Three rows of unknowns. *)
Definition symbolic_points : matrix term :=
  [[TVar 0; TVar 1; TVar 2]; [TVar 3; TVar 4; TVar 5]; [TVar 6; TVar 7; TVar 8]].

(** Every point moved by the same vector [t]. *)
Definition translate (t : list R) (coords : matrix R) : matrix R :=
  map (fun row => map (fun xt => (fst xt + snd xt)%R) (combine row t)) coords.

(** * Properties *)

(** ** 32-bit arithmetic *)

Module Int32Facts.
Import Int32.

Lemma wrap_small (z : Z) : in_range z -> wrap z = z.
Proof.
  unfold in_range, int_min, int_max, wrap. intros H.
  rewrite Z.mod_small; lia.
Qed.

Lemma wrap_in_range (z : Z) : in_range (wrap z).
Proof.
  unfold in_range, int_min, int_max, wrap.
  pose proof (Z.mod_pos_bound (z + 2 ^ 31) (2 ^ 32) ltac:(lia)). lia.
Qed.

(** Reduction keeps the value modulo 2^32. *)
Lemma wrap_spec (z : Z) : exists k, wrap z = z - k * 2 ^ 32.
Proof.
  exists ((z + 2 ^ 31) / 2 ^ 32). unfold wrap.
  pose proof (Z.div_mod (z + 2 ^ 31) (2 ^ 32) ltac:(lia)). lia.
Qed.

Lemma wrap_unique (z w : Z) :
  in_range w -> (exists k, w = z - k * 2 ^ 32) -> wrap z = w.
Proof.
  intros Hw [k ->]. destruct (wrap_spec z) as [k' Hk'].
  pose proof (wrap_in_range z) as Hr. rewrite Hk' in *.
  unfold in_range, int_min, int_max in *.
  assert (k' = k) by lia. now subst.
Qed.

(** The wrap of an intermediate result does not show in a later
    subtraction: [N*N - N] is right as soon as the difference fits. *)
Lemma sub_mul_exact (a b c : Z) :
  in_range (a * b - c) -> sub (mul a b) c = a * b - c.
Proof.
  intros H. unfold sub, mul. apply wrap_unique; [exact H|].
  destruct (wrap_spec (a * b)) as [k ->].
  destruct (wrap_spec (a * b - k * 2 ^ 32 - c)) as [k' Hk'].
  exists (- k). lia.
Qed.

Lemma wrap_even (z : Z) : Z.even (wrap z) = Z.even z.
Proof.
  destruct (wrap_spec z) as [k ->].
  replace (z - k * 2 ^ 32) with (z + 2 * (- k * 2 ^ 31)) by lia.
  now rewrite Z.even_add_mul_2.
Qed.

End Int32Facts.

(** ** Triangular numbers and the packed index *)

Lemma even_consecutive (i : Z) : Z.even (i * (i + 1)) = true.
Proof.
  rewrite Z.even_mul, Z.even_add. destruct (Z.even i); reflexivity.
Qed.

Lemma half_consecutive (i : Z) : 2 * (i * (i + 1) / 2) = i * (i + 1).
Proof.
  pose proof (even_consecutive i) as H.
  apply Z.even_spec in H. destruct H as [k Hk].
  rewrite Hk. rewrite (Z.mul_comm 2 k), Z.div_mul by lia. lia.
Qed.

Lemma half_square_minus (N : Z) : 2 * ((N * N - N) / 2) = N * N - N.
Proof.
  replace (N * N - N) with ((N - 1) * (N - 1 + 1)) by lia.
  apply half_consecutive.
Qed.

Lemma half_product (N : Z) : N * (N - 1) / 2 = (N * N - N) / 2.
Proof. f_equal. lia. Qed.

Lemma linindex_row (i j N : Z) : linindex i j N = row_start i N + (j - (i + 1)).
Proof. unfold row_start, linindex. lia. Qed.

Lemma row_start_0 (N : Z) : row_start 0 N = 0.
Proof. reflexivity. Qed.

Lemma row_start_succ (i N : Z) :
  row_start (i + 1) N = row_start i N + (N - (i + 1)).
Proof.
  unfold row_start, linindex.
  pose proof (half_consecutive i). pose proof (half_consecutive (i + 1)).
  nia.
Qed.

Lemma row_start_last (N : Z) : row_start N N = N * (N - 1) / 2.
Proof.
  unfold row_start, linindex.
  pose proof (half_consecutive N). pose proof (half_consecutive (N - 1)).
  replace (N * (N - 1)) with ((N - 1) * (N - 1 + 1)) by lia.
  nia.
Qed.

Lemma row_start_mono (i i' N : Z) :
  0 <= i <= i' -> i' <= N -> row_start i N <= row_start i' N.
Proof.
  intros [H0 H] HN.
  replace i' with (i + Z.of_nat (Z.to_nat (i' - i))) in * by lia.
  induction (Z.to_nat (i' - i)) as [|n IH].
  - rewrite Z.add_0_r. lia.
  - rewrite Nat2Z.inj_succ in *.
    replace (i + Z.succ (Z.of_nat n)) with (i + Z.of_nat n + 1) in * by lia.
    rewrite row_start_succ. lia.
Qed.

Lemma linindex_bounds (i j N : Z) :
  0 <= i < j -> j < N -> 0 <= linindex i j N < N * (N - 1) / 2.
Proof.
  intros Hij HN. rewrite linindex_row.
  pose proof (row_start_mono 0 i N ltac:(lia) ltac:(lia)) as H0.
  pose proof (row_start_mono (i + 1) N N ltac:(lia) ltac:(lia)) as H1.
  rewrite row_start_0 in H0. rewrite row_start_last, row_start_succ in H1.
  lia.
Qed.

Lemma linindex_lt_rows (i1 j1 i2 j2 N : Z) :
  0 <= i1 < j1 -> j1 < N -> 0 <= i2 < j2 -> j2 < N -> i1 < i2 ->
  linindex i1 j1 N < linindex i2 j2 N.
Proof.
  intros H1 HN1 H2 HN2 Hlt.
  rewrite (linindex_row i1), (linindex_row i2).
  pose proof (row_start_mono (i1 + 1) i2 N ltac:(lia) ltac:(lia)) as H.
  rewrite row_start_succ in H. lia.
Qed.

Lemma linindex_inj (i1 j1 i2 j2 N : Z) :
  0 <= i1 < j1 -> j1 < N -> 0 <= i2 < j2 -> j2 < N ->
  linindex i1 j1 N = linindex i2 j2 N -> i1 = i2 /\ j1 = j2.
Proof.
  intros H1 HN1 H2 HN2 E.
  assert (i1 = i2) as ->.
  { destruct (Z.lt_trichotomy i1 i2) as [L | [L | L]]; [|exact L|].
    - pose proof (linindex_lt_rows i1 j1 i2 j2 N). lia.
    - pose proof (linindex_lt_rows i2 j2 i1 j1 N). lia. }
  split; [reflexivity|]. rewrite (linindex_row i2 j1), (linindex_row i2 j2) in E.
  lia.
Qed.

(** ** Ranges and the order of the iterations *)

Lemma count_from_length (a : Z) (n : nat) : length (count_from a n) = n.
Proof. revert a. induction n as [|n IH]; intros a; simpl; [|rewrite IH]; reflexivity. Qed.

Lemma count_from_In (a : Z) (n : nat) (x : Z) :
  In x (count_from a n) <-> a <= x < a + Z.of_nat n.
Proof.
  revert a. induction n as [|n IH]; intros a; simpl count_from.
  - simpl. lia.
  - rewrite Nat2Z.inj_succ. simpl. rewrite IH. lia.
Qed.

Lemma count_from_app (a : Z) (n m : nat) :
  count_from a (n + m) = count_from a n ++ count_from (a + Z.of_nat n) m.
Proof.
  revert a. induction n as [|n IH]; intros a.
  - simpl. now rewrite Z.add_0_r.
  - rewrite Nat2Z.inj_succ. simpl. rewrite IH. do 3 f_equal. lia.
Qed.

Lemma count_from_nth (a : Z) (n k : nat) (d : Z) :
  (k < n)%nat -> nth k (count_from a n) d = a + Z.of_nat k.
Proof.
  revert a k. induction n as [|n IH]; intros a k Hk; [lia|].
  destruct k as [|k]; simpl nth.
  - simpl. lia.
  - rewrite IH by lia. lia.
Qed.

Lemma count_from_NoDup (a : Z) (n : nat) : NoDup (count_from a n).
Proof.
  revert a. induction n as [|n IH]; intros a; simpl; constructor.
  - rewrite count_from_In. lia.
  - apply IH.
Qed.

Lemma count_from_shift (c a : Z) (n : nat) :
  map (fun j => c + (j - a)) (count_from a n) = count_from c n.
Proof.
  revert c a. induction n as [|n IH]; intros c a; simpl; [reflexivity|].
  f_equal; [lia|]. rewrite <- (IH (c + 1) (a + 1)).
  apply map_ext. intros j. lia.
Qed.

Lemma range_In (a b x : Z) : In x (range a b) <-> a <= x < b.
Proof. unfold range. rewrite count_from_In. lia. Qed.

Lemma range_length (a b : Z) : length (range a b) = Z.to_nat (b - a).
Proof. apply count_from_length. Qed.

Lemma do_range_range (a b : Z) : do_range a b = range a (b + 1).
Proof. unfold do_range, range. f_equal. f_equal. lia. Qed.

Lemma pairs_In (N i j : Z) : In (i, j) (pairs N) <-> 0 <= i < j /\ j < N.
Proof.
  unfold pairs. rewrite in_flat_map. split.
  - intros [i' [Hi Hj]]. apply in_map_iff in Hj. destruct Hj as [j' [E Hj]].
    inversion E; subst. apply range_In in Hi, Hj. lia.
  - intros [Hij HN]. exists i. split; [apply range_In; lia|].
    apply in_map_iff. exists j. split; [reflexivity | apply range_In; lia].
Qed.

Lemma map_flat_map {A B C : Type} (f : B -> C) (g : A -> list B) (l : list A) :
  map f (flat_map g l) = flat_map (fun x => map f (g x)) l.
Proof.
  induction l as [|x l IH]; simpl; [reflexivity|].
  now rewrite map_app, IH.
Qed.

(** The slots of row [i] are consecutive. *)
Lemma row_slots (i N : Z) :
  map (fun j => linindex i j N) (range (i + 1) N)
  = count_from (row_start i N) (Z.to_nat (N - (i + 1))).
Proof.
  unfold range. rewrite <- (count_from_shift (row_start i N) (i + 1)).
  apply map_ext. intros j. apply linindex_row.
Qed.

Lemma rows_slots (N : Z) (n : nat) (a : Z) :
  0 <= a -> a + Z.of_nat n <= N ->
  flat_map (fun i => map (fun j => linindex i j N) (range (i + 1) N))
           (count_from a n)
  = count_from (row_start a N)
               (Z.to_nat (row_start (a + Z.of_nat n) N - row_start a N)).
Proof.
  revert a. induction n as [|n IH]; intros a Ha HN.
  - simpl. rewrite Z.add_0_r, Z.sub_diag. reflexivity.
  - rewrite Nat2Z.inj_succ in *. simpl flat_map.
    rewrite row_slots, IH by lia.
    pose proof (row_start_succ a N) as Hs.
    pose proof (row_start_mono (a + 1) (a + 1 + Z.of_nat n) N
                  ltac:(lia) ltac:(lia)) as Hm.
    replace (a + Z.succ (Z.of_nat n)) with (a + 1 + Z.of_nat n) by lia.
    replace (Z.to_nat (row_start (a + 1 + Z.of_nat n) N - row_start a N))
      with (Z.to_nat (N - (a + 1))
            + Z.to_nat (row_start (a + 1 + Z.of_nat n) N - row_start (a + 1) N))%nat
      by lia.
    rewrite count_from_app. do 2 f_equal. lia.
Qed.

(** In the order of the loops, the k-th pair is stored in slot k. *)
Lemma pairs_slots (N : Z) :
  0 <= N ->
  map (fun p => linindex (fst p) (snd p) N) (pairs N) = range 0 (N * (N - 1) / 2).
Proof.
  intros HN. unfold pairs. rewrite map_flat_map.
  erewrite flat_map_ext; [|intros i; rewrite map_map; reflexivity].
  simpl fst. simpl snd. unfold range at 2.
  rewrite rows_slots by lia.
  rewrite Z.sub_0_r, Z2Nat.id, Z.add_0_l by lia.
  rewrite row_start_0, Z.sub_0_r, row_start_last.
  unfold range. now rewrite Z.sub_0_r.
Qed.

Lemma pairs_length (N : Z) :
  0 <= N -> length (pairs N) = Z.to_nat (N * (N - 1) / 2).
Proof.
  intros HN.
  rewrite <- (length_map (fun p => linindex (fst p) (snd p) N)), pairs_slots by lia.
  rewrite range_length. f_equal. lia.
Qed.

(** The enumeration for five points: ten pairs, slots 0 to 9 in order. *)
Example pairs_5_slots :
  map (fun p => linindex (fst p) (snd p) 5) (pairs 5) = [0; 1; 2; 3; 4; 5; 6; 7; 8; 9].
Proof. reflexivity. Qed.

(** ** Loops *)

Lemma for_each_app {I St : Type} (body : St -> I -> result St) (a b : list I) (s : St) :
  for_each body (a ++ b) s = (s' <- for_each body a s ;; for_each body b s').
Proof.
  revert s. induction a as [|x a IH]; intros s; simpl; [reflexivity|].
  destruct (body s x); simpl; [apply IH | reflexivity].
Qed.

Lemma for_each_ext {I St : Type} (f g : St -> I -> result St) (its : list I) (s : St) :
  (forall s' i, In i its -> f s' i = g s' i) ->
  for_each f its s = for_each g its s.
Proof.
  revert s. induction its as [|x its IH]; intros s H; simpl; [reflexivity|].
  rewrite H by (left; reflexivity).
  destruct (g s x); simpl; [|reflexivity].
  apply IH. intros s' i Hi. apply H. now right.
Qed.

Lemma for_each_map {I J St : Type} (f : St -> J -> result St) (h : I -> J)
      (its : list I) (s : St) :
  for_each f (map h its) s = for_each (fun s' x => f s' (h x)) its s.
Proof.
  revert s. induction its as [|x its IH]; intros s; simpl; [reflexivity|].
  destruct (f s (h x)); simpl; [apply IH | reflexivity].
Qed.

(** A nest of two loops is one loop over the pairs of indices. *)
Lemma for_each_nest {I J St : Type} (f : I -> St -> J -> result St) (g : I -> list J)
      (its : list I) (s : St) :
  for_each (fun s' i => for_each (f i) (g i) s') its s
  = for_each (fun s' p => f (fst p) s' (snd p))
             (flat_map (fun i => map (fun j => (i, j)) (g i)) its) s.
Proof.
  revert s. induction its as [|x its IH]; intros s; simpl; [reflexivity|].
  rewrite for_each_app, for_each_map. simpl.
  destruct (for_each (f x) (g x) s); simpl; [apply IH | reflexivity].
Qed.

(** ** Stores *)

Section Stores.

Context {F : Type}.

Lemma upd_length (n : nat) (v : F) (r : list F) : length (upd n v r) = length r.
Proof.
  revert n. induction r as [|x r IH]; intros n; [reflexivity|].
  destruct n; simpl; [|rewrite IH]; reflexivity.
Qed.

Lemma upd_nth_eq (n : nat) (v d : F) (r : list F) :
  (n < length r)%nat -> nth n (upd n v r) d = v.
Proof.
  revert n. induction r as [|x r IH]; intros n Hn; simpl in *; [lia|].
  destruct n; simpl; [reflexivity | apply IH; lia].
Qed.

Lemma upd_nth_ne (n m : nat) (v d : F) (r : list F) :
  n <> m -> nth m (upd n v r) d = nth m r d.
Proof.
  revert n m. induction r as [|x r IH]; intros n m Hne; [reflexivity|].
  destruct n, m; simpl; try reflexivity; [lia | apply IH; lia].
Qed.

Lemma store_ok (r : list F) (l : Z) (v : F) :
  0 <= l < Z.of_nat (length r) -> store r l v = Ok (upd (Z.to_nat l) v r).
Proof.
  intros H. unfold store.
  destruct (Z.leb_spec 0 l), (Z.ltb_spec l (Z.of_nat (length r))); simpl;
    solve [reflexivity | lia].
Qed.

Lemma store_inv (r r' : list F) (l : Z) (v : F) :
  store r l v = Ok r' ->
  0 <= l < Z.of_nat (length r) /\ r' = upd (Z.to_nat l) v r.
Proof.
  unfold store.
  destruct (Z.leb_spec 0 l), (Z.ltb_spec l (Z.of_nat (length r))); simpl;
    intros E; inversion E; split; solve [reflexivity | lia].
Qed.

(** A sequence of stores inside the buffer succeeds and leaves the other
    slots alone; when no slot is stored twice, each slot stored holds the
    value stored there, whatever the order of the stores. *)
Lemma writes_ok (d : F) (ws : list (Z * F)) (r : list F) :
  (forall w, In w ws -> 0 <= fst w < Z.of_nat (length r)) ->
  exists r',
    for_each write ws r = Ok r'
    /\ length r' = length r
    /\ (forall n, ~ In (Z.of_nat n) (map fst ws) -> nth n r' d = nth n r d)
    /\ (NoDup (map fst ws) ->
        forall w, In w ws -> nth (Z.to_nat (fst w)) r' d = snd w).
Proof.
  revert r. induction ws as [|[l v] ws IH]; intros r Hb.
  - exists r. simpl. repeat split; auto. intros _ w [].
  - pose proof (Hb (l, v) (or_introl eq_refl)) as Hl. simpl in Hl.
    destruct (IH (upd (Z.to_nat l) v r)) as (r' & Hr' & Hlen & Hout & Hin).
    { intros w Hw. rewrite upd_length. apply Hb. now right. }
    exists r'. simpl for_each. unfold write at 1. simpl fst. simpl snd.
    rewrite store_ok by exact Hl. simpl bind.
    split; [exact Hr'|]. split; [now rewrite Hlen, upd_length|]. split.
    + intros n Hn. simpl in Hn.
      rewrite Hout by tauto. apply upd_nth_ne. intros E.
      apply Hn. left. lia.
    + intros Hnd w [<- | Hw]; simpl fst; simpl snd.
      * inversion Hnd as [|? ? Hni _]; subst.
        rewrite <- (Z2Nat.id l) in Hni by lia.
        rewrite Hout by exact Hni. apply upd_nth_eq. lia.
      * inversion Hnd; subst. now apply Hin.
Qed.

End Stores.

(** ** Index arithmetic of the Cython kernel *)

Lemma trunc_half_sum (a b j : Z) :
  Z.even b = true ->
  trunc (of_int a - of_int b / 2 + of_int j - 1) = a - b / 2 + j - 1.
Proof.
  intros Hb. apply Z.even_spec in Hb. destruct Hb as [k ->].
  rewrite (Z.mul_comm 2 k), Z.div_mul by lia.
  unfold trunc, of_int. cbn.
  match goal with |- Z.quot ?n 2 = ?m => replace n with (m * 2) by lia end.
  apply Z.quot_mul. lia.
Qed.

Lemma trunc_half (b : Z) : Z.even b = true -> trunc (of_int b / 2) = b / 2.
Proof.
  intros Hb. apply Z.even_spec in Hb. destruct Hb as [k ->].
  rewrite (Z.mul_comm 2 k), Z.div_mul by lia.
  unfold trunc, of_int. cbn. rewrite Z.mul_1_r. apply Z.quot_mul. lia.
Qed.

Section Index.

Import Int32 Int32Facts.

Lemma of_double_small (z : Z) : in_range z -> of_double z = z.
Proof.
  unfold in_range, of_double. intros H.
  destruct (Z.leb_spec int_min z), (Z.leb_spec z int_max); simpl;
    solve [reflexivity | lia].
Qed.

(** The double arithmetic of line 88 is exact: the product halved is even,
    also after a wrap, and the value truncated is an integer. *)
Lemma l_cython_int (i j N : Z) :
  l_cython i j N = of_double (mul i (sub N 1) - mul i (add i 1) / 2 + j - 1).
Proof.
  unfold l_cython. rewrite trunc_half_sum; [reflexivity|].
  unfold mul, add. rewrite wrap_even, Z.even_mul, wrap_even, Z.even_add.
  destruct (Z.even i); reflexivity.
Qed.

Lemma size_cython_int (N : Z) : size_cython N = sub (mul N N) N / 2.
Proof.
  unfold size_cython. apply trunc_half.
  unfold sub, mul. rewrite wrap_even, Z.even_sub, wrap_even, Z.even_mul.
  destruct (Z.even N); reflexivity.
Qed.

(** 46341 is the largest [N] whose [N*N - N] fits an [int]. *)
Lemma size_cython_exact (N : Z) :
  0 <= N <= 46341 -> size_cython N = N * (N - 1) / 2.
Proof.
  intros HN. rewrite size_cython_int, sub_mul_exact, half_product.
  - reflexivity.
  - unfold in_range, int_min, int_max. nia.
Qed.

Lemma l_cython_exact (i j N : Z) :
  0 <= i < j -> j < N -> N <= 46341 -> l_cython i j N = linindex i j N.
Proof.
  intros Hij HjN HN. rewrite l_cython_int. unfold mul, sub, add.
  rewrite (wrap_small (N - 1)) by (unfold in_range, int_min, int_max; lia).
  rewrite (wrap_small (i + 1)) by (unfold in_range, int_min, int_max; lia).
  rewrite (wrap_small (i * (N - 1))) by (unfold in_range, int_min, int_max; nia).
  rewrite (wrap_small (i * (i + 1))) by (unfold in_range, int_min, int_max; nia).
  fold (linindex i j N). apply of_double_small.
  pose proof (linindex_bounds i j N Hij HjN) as Hb.
  assert (N * (N - 1) / 2 <= N * (N - 1)).
  { pose proof (half_square_minus N). rewrite half_product. nia. }
  unfold in_range, int_min, int_max. nia.
Qed.

End Index.

(** ** Index arithmetic of the Fortran kernel *)

Section IndexFortran.

Import Int32 Int32Facts.

Lemma l_fortran_exact (i j N : Z) :
  0 <= i < j -> j < N -> N <= 46342 -> l_fortran i j N = linindex i j N + 1.
Proof.
  intros Hij HjN HN. unfold l_fortran, mul, sub, add, div.
  assert (0 <= i * (N - 1) <= 46340 * 46341) as Ha by nia.
  assert (0 <= i * (i + 1) <= 46340 * 46341) as Hb by nia.
  pose proof (half_consecutive i) as Hh.
  pose proof (linindex_bounds i j N Hij HjN) as Hl.
  assert (N * (N - 1) / 2 <= 1073767311).
  { pose proof (half_square_minus N). rewrite half_product. nia. }
  unfold linindex in Hl.
  rewrite (wrap_small (N - 1)) by (unfold in_range, int_min, int_max; lia).
  rewrite (wrap_small (i + 1)) by (unfold in_range, int_min, int_max; lia).
  rewrite (wrap_small (i * (N - 1))) by (unfold in_range, int_min, int_max; lia).
  rewrite (wrap_small (i * (i + 1))) by (unfold in_range, int_min, int_max; lia).
  rewrite Z.quot_div_nonneg by lia.
  rewrite (wrap_small (i * (i + 1) / 2)) by (unfold in_range, int_min, int_max; lia).
  set (a := i * (N - 1)) in *. set (t := i * (i + 1) / 2) in *.
  rewrite (wrap_small (a - t)) by (unfold in_range, int_min, int_max; lia).
  rewrite (wrap_small (a - t + j)) by (unfold in_range, int_min, int_max; lia).
  rewrite (wrap_small (a - t + j - 1)) by (unfold in_range, int_min, int_max; lia).
  rewrite wrap_small by (unfold in_range, int_min, int_max; lia).
  unfold linindex. fold a t. lia.
Qed.

Lemma do_rows_exact (N : Z) :
  0 <= N <= 46342 -> do_range 0 (sub N 1) = range 0 N.
Proof.
  intros HN. unfold sub.
  rewrite wrap_small by (unfold in_range, int_min, int_max; lia).
  rewrite do_range_range. f_equal. lia.
Qed.

Lemma do_row_exact (i N : Z) :
  0 <= i < N -> N <= 46342 ->
  do_range (add i 1) (sub N 1) = range (i + 1) N.
Proof.
  intros Hi HN. unfold add, sub.
  rewrite !wrap_small by (unfold in_range, int_min, int_max; lia).
  rewrite do_range_range. f_equal. lia.
Qed.

End IndexFortran.

(** Up to these bounds the slots the code computes for row [i] are those
    of [linindex]. *)
Lemma slots_cython (i N : Z) :
  0 <= i < N -> N <= 46341 ->
  map (fun j => l_cython i j N) (range (i + 1) N) = slots i N.
Proof.
  intros Hi HN. apply map_ext_in. intros j Hj. apply range_In in Hj.
  apply l_cython_exact; lia.
Qed.

Lemma slots_fortran (i N : Z) :
  0 <= i < N -> N <= 46342 ->
  map (fun j => l_fortran i j N - 1) (range (i + 1) N) = slots i N.
Proof.
  intros Hi HN. apply map_ext_in. intros j Hj. apply range_In in Hj.
  rewrite l_fortran_exact by lia. lia.
Qed.

(** ** The packed vector of distances *)

Section Packed.

Context {F : Type} {S : Scalar F}.

Lemma packed_length (coords : matrix F) :
  Z.of_nat (length (packed coords)) = shape0 coords * (shape0 coords - 1) / 2.
Proof.
  unfold packed. rewrite length_map, pairs_length by (unfold shape0; lia).
  apply Z2Nat.id. pose proof (half_square_minus (shape0 coords)).
  rewrite half_product. unfold shape0 in *. nia.
Qed.

Lemma packed_nth (coords : matrix F) (i j : Z) (d : F) :
  0 <= i < j -> j < shape0 coords ->
  nth (Z.to_nat (linindex i j (shape0 coords))) (packed coords) d
  = value coords (i, j).
Proof.
  intros Hij HjN. set (N := shape0 coords).
  assert (0 <= N) as HN by (unfold N, shape0; lia).
  pose proof (linindex_bounds i j N Hij HjN) as Hb.
  set (n := Z.to_nat (linindex i j N)).
  assert (n < length (pairs N))%nat as Hn by (rewrite pairs_length; lia).
  unfold packed. fold N.
  rewrite (nth_indep _ d (value coords (0, 0))) by now rewrite length_map.
  rewrite map_nth. f_equal.
  pose proof (pairs_slots N HN) as Hs.
  apply (f_equal (fun l => nth n l (linindex (fst (0, 0)) (snd (0, 0)) N))) in Hs.
  rewrite (map_nth (fun p => linindex (fst p) (snd p) N)) in Hs.
  unfold range in Hs. rewrite count_from_nth in Hs by (rewrite pairs_length in Hn; lia).
  destruct (nth n (pairs N) (0, 0)) as [i' j'] eqn:E.
  assert (In (i', j') (pairs N)) as Hin by (rewrite <- E; now apply nth_In).
  apply pairs_In in Hin. simpl in Hs.
  destruct (linindex_inj i' j' i j N) as [-> ->];
    solve [tauto | lia | reflexivity].
Qed.

(** Storing each pair's value at its slot, the pairs taken in any order,
    fills the zeroed buffer with [packed]. *)
Lemma stores_packed (coords : matrix F) (its : list (Z * Z)) :
  let N := shape0 coords in
  Permutation its (pairs N) ->
  for_each (fun r p => store r (linindex (fst p) (snd p) N) (value coords p))
           its (repeat zero (Z.to_nat (N * (N - 1) / 2)))
  = Ok (packed coords).
Proof.
  intros N Hperm.
  assert (0 <= N) as HN by (unfold N, shape0; lia).
  set (w := fun p : Z * Z => (linindex (fst p) (snd p) N, value coords p)).
  change (fun r p => store r (linindex (fst p) (snd p) N) (value coords p))
    with (fun r p => write r (w p)).
  rewrite <- (for_each_map write w).
  pose proof (packed_length coords) as HM. fold N in HM.
  assert (forall p, In p its -> In p (pairs N)) as Hsub
      by (intros p; apply Permutation_in; exact Hperm).
  destruct (writes_ok zero (map w its) (repeat zero (Z.to_nat (N * (N - 1) / 2))))
    as (r' & Hr' & Hlen & _ & Hin).
  { intros x Hx. apply in_map_iff in Hx. destruct Hx as [[i j] [<- Hp]].
    apply Hsub, pairs_In in Hp. rewrite repeat_length. simpl.
    pose proof (linindex_bounds i j N). lia. }
  rewrite Hr'. f_equal. rewrite repeat_length in Hlen.
  assert (NoDup (map fst (map w its))) as Hnd.
  { rewrite map_map. simpl.
    apply (Permutation_NoDup (l := range 0 (N * (N - 1) / 2)));
      [|apply count_from_NoDup].
    rewrite <- pairs_slots by exact HN.
    apply Permutation_map, Permutation_sym, Hperm. }
  specialize (Hin Hnd).
  apply (nth_ext _ _ zero zero); [lia|].
  intros n Hn.
  assert (n < length (pairs N))%nat as Hn' by (rewrite pairs_length; lia).
  destruct (nth n (pairs N) (0, 0)) as [i j] eqn:E.
  assert (In (i, j) (pairs N)) as Hp by (rewrite <- E; now apply nth_In).
  assert (linindex i j N = Z.of_nat n) as Hl.
  { pose proof (pairs_slots N HN) as Hs.
    apply (f_equal (fun l => nth n l (linindex (fst (0, 0)) (snd (0, 0)) N))) in Hs.
    rewrite (map_nth (fun p => linindex (fst p) (snd p) N)), E in Hs.
    unfold range in Hs. rewrite count_from_nth in Hs by (rewrite pairs_length in Hn'; lia).
    simpl in Hs. lia. }
  assert (In (w (i, j)) (map w its)) as Hw.
  { apply in_map. apply (Permutation_in _ (Permutation_sym Hperm)), Hp. }
  specialize (Hin _ Hw). simpl in Hin. rewrite Hl, Nat2Z.id in Hin.
  rewrite Hin. apply pairs_In in Hp.
  rewrite <- (packed_nth coords i j zero) by tauto.
  fold N. now rewrite Hl, Nat2Z.id.
Qed.

End Packed.

(** ** What the kernels return *)

Section Returned.

Context {F : Type} {S : Scalar F}.

Import Int32Facts.

Lemma schedule_pairs (sched : list Z) (N : Z) :
  Permutation sched (range 0 N) ->
  Permutation (flat_map (fun i => map (fun j => (i, j)) (range (i + 1) N)) sched)
              (pairs N).
Proof. intros H. unfold pairs. now apply Permutation_flat_map. Qed.

Lemma shape0_wrap (coords : matrix F) :
  shape0 coords <= 46342 -> Int32.wrap (shape0 coords) = shape0 coords.
Proof.
  intros H. apply wrap_small. unfold Int32.in_range, Int32.int_min, Int32.int_max, shape0 in *. lia.
Qed.

(** The Cython kernel, under any order of the outer iterations. *)
Lemma cython_sched_packed (sched : list Z) (coords : matrix F) :
  shape0 coords <= 46341 ->
  Permutation sched (range 0 (shape0 coords)) ->
  r_ij_cython_sched sched coords = Ok (packed coords).
Proof.
  intros HN Hperm. unfold r_ij_cython_sched.
  rewrite shape0_wrap by lia. set (N := shape0 coords) in *.
  assert (0 <= N) as HN0 by (unfold N, shape0; lia).
  rewrite size_cython_exact by lia.
  assert (0 <= N * (N - 1) / 2) as HM.
  { pose proof (half_square_minus N). rewrite half_product. nia. }
  unfold np_zeros. destruct (Z.ltb_spec (N * (N - 1) / 2) 0); [lia|].
  simpl bind. unfold row_cython.
  rewrite (for_each_nest (body_cython coords N) (fun i => range (i + 1) N)).
  rewrite (for_each_ext _
             (fun r p => store r (linindex (fst p) (snd p) N) (value coords p))).
  - apply stores_packed. now apply schedule_pairs.
  - intros r [i j] Hp.
    apply (Permutation_in _ (schedule_pairs sched N Hperm)), pairs_In in Hp.
    simpl. unfold body_cython. now rewrite l_cython_exact by lia.
Qed.

Lemma cython_packed (coords : matrix F) :
  shape0 coords <= 46341 -> r_ij_cython coords = Ok (packed coords).
Proof.
  intros HN. unfold r_ij_cython. rewrite shape0_wrap by lia.
  now apply cython_sched_packed.
Qed.

(** The stores of the Cython kernel taken one by one, in any order in which
    concurrent iterations may interleave them. *)
Lemma cython_stores_any_order (coords : matrix F) (its : list (Z * Z)) :
  let N := shape0 coords in
  N <= 46341 -> Permutation its (pairs N) ->
  for_each (fun r p => body_cython coords N (fst p) r (snd p)) its
           (repeat zero (Z.to_nat (N * (N - 1) / 2)))
  = Ok (packed coords).
Proof.
  intros N HN Hperm.
  rewrite (for_each_ext _
             (fun r p => store r (linindex (fst p) (snd p) N) (value coords p))).
  - now apply stores_packed.
  - intros r [i j] Hp. apply (Permutation_in _ Hperm), pairs_In in Hp.
    simpl. unfold body_cython. now rewrite l_cython_exact by lia.
Qed.

(** Rows of three columns, flattened. *)
Lemma nth_concat_rows (d : F) (coords : matrix F) (i k : nat) :
  is_Nx3 coords -> (k < 3)%nat -> (i < length coords)%nat ->
  nth (3 * i + k) (concat coords) d = nth k (nth i coords []) d.
Proof.
  intros Hwf Hk. revert i. induction Hwf as [|row rest Hrow _ IH]; intros i Hi.
  - simpl in Hi. lia.
  - simpl concat. destruct i as [|i].
    + simpl. apply app_nth1. lia.
    + replace (3 * Datatypes.S i + k)%nat with (length row + (3 * i + k))%nat by lia.
      rewrite app_nth2_plus. simpl. apply IH. simpl in Hi. lia.
Qed.

Lemma get1_ravel (coords : matrix F) (i k : Z) :
  is_Nx3 coords -> 0 <= i < shape0 coords -> shape0 coords <= 46342 ->
  1 <= k <= 3 ->
  get1 (ravel coords) (Int32.add (Int32.mul i 3) k) = get coords i (k - 1).
Proof.
  intros Hwf Hi HN Hk. unfold get1, get, ravel, Int32.add, Int32.mul.
  rewrite (wrap_small (i * 3)) by (unfold Int32.in_range, Int32.int_min, Int32.int_max; lia).
  rewrite wrap_small by (unfold Int32.in_range, Int32.int_min, Int32.int_max; lia).
  replace (Z.to_nat (i * 3 + k - 1)) with (3 * Z.to_nat i + Z.to_nat (k - 1))%nat
    by lia.
  apply nth_concat_rows; [exact Hwf | lia | unfold shape0 in Hi; lia].
Qed.

Lemma tmp_fortran_ravel (coords : matrix F) (i j : Z) :
  is_Nx3 coords -> 0 <= i < shape0 coords -> 0 <= j < shape0 coords ->
  shape0 coords <= 46342 ->
  tmp_fortran (ravel coords) (Int32.mul i 3) (Int32.mul j 3) = tmp_cython coords i j.
Proof.
  intros Hwf Hi Hj HN. unfold tmp_fortran, tmp_cython.
  change (do_range 1 3) with [1; 2; 3]. change (range 0 3) with [0; 1; 2].
  simpl fold_left.
  now rewrite !get1_ravel by (assumption || lia).
Qed.

(** The Fortran kernel, its outer iterations run one after another in any
    order. *)
Lemma fortran_sched_packed (sched : list Z) (coords : matrix F) :
  is_Nx3 coords -> shape0 coords <= 46342 ->
  Permutation sched (range 0 (shape0 coords)) ->
  r_ij_fortran_sched sched coords = Ok (packed coords).
Proof.
  intros Hwf HN Hperm. unfold r_ij_fortran_sched, getrij_sched.
  rewrite shape0_wrap by lia.
  assert (0 <= shape0 coords) as HN0 by (unfold shape0; lia).
  rewrite <- half_product.
  assert (0 <= shape0 coords * (shape0 coords - 1) / 2) as HM.
  { pose proof (half_square_minus (shape0 coords)). rewrite half_product. nia. }
  unfold np_zeros.
  destruct (Z.ltb_spec (shape0 coords * (shape0 coords - 1) / 2) 0); [lia|].
  simpl bind. set (N := shape0 coords) in *.
  rewrite (for_each_ext _
             (fun r i => for_each (fun r' j => store r' (linindex i j N) (value coords (i, j)))
                                  (range (i + 1) N) r)).
  - rewrite (for_each_nest
               (fun i r' j => store r' (linindex i j N) (value coords (i, j)))
               (fun i => range (i + 1) N)).
    apply (stores_packed coords). now apply schedule_pairs.
  - intros r i Hi. apply (Permutation_in _ Hperm), range_In in Hi.
    unfold row_getrij. rewrite do_row_exact by lia.
    apply for_each_ext. intros r' j Hj. apply range_In in Hj.
    unfold body_getrij, store1.
    rewrite l_fortran_exact, tmp_fortran_ravel by (assumption || lia).
    f_equal. lia.
Qed.

Lemma fortran_packed (coords : matrix F) :
  is_Nx3 coords -> shape0 coords <= 46342 ->
  r_ij_fortran coords = Ok (packed coords).
Proof.
  intros Hwf HN.
  rewrite <- (fortran_sched_packed (range 0 (shape0 coords)) coords Hwf HN)
    by apply Permutation_refl.
  unfold r_ij_fortran, r_ij_fortran_sched, getrij.
  rewrite shape0_wrap, do_rows_exact by (unfold shape0 in *; lia).
  reflexivity.
Qed.

End Returned.

(** ** Running the kernels on small inputs *)

Section Small.

Context {F : Type} {S : Scalar F}.

Lemma cython_three (x0 x1 x2 y0 y1 y2 z0 z1 z2 : F) :
  r_ij_cython [[x0; x1; x2]; [y0; y1; y2]; [z0; z1; z2]]
  = Ok [d3 x0 x1 x2 y0 y1 y2; d3 x0 x1 x2 z0 z1 z2; d3 y0 y1 y2 z0 z1 z2].
Proof. vm_compute. reflexivity. Qed.

Lemma fortran_three (x0 x1 x2 y0 y1 y2 z0 z1 z2 : F) :
  r_ij_fortran [[x0; x1; x2]; [y0; y1; y2]; [z0; z1; z2]]
  = Ok [d3 x0 x1 x2 y0 y1 y2; d3 x0 x1 x2 z0 z1 z2; d3 y0 y1 y2 z0 z1 z2].
Proof. vm_compute. reflexivity. Qed.

(** The outer iterations in decreasing order fill the same vector. *)
Lemma cython_three_reversed (x0 x1 x2 y0 y1 y2 z0 z1 z2 : F) :
  r_ij_cython_sched [2; 1; 0] [[x0; x1; x2]; [y0; y1; y2]; [z0; z1; z2]]
  = Ok [d3 x0 x1 x2 y0 y1 y2; d3 x0 x1 x2 z0 z1 z2; d3 y0 y1 y2 z0 z1 z2].
Proof. vm_compute. reflexivity. Qed.

Lemma cython_few_rows (coords : matrix F) :
  (length coords <= 1)%nat -> r_ij_cython coords = Ok [].
Proof.
  destruct coords as [|row [|row' rest]]; simpl length; intros H;
    [reflexivity | reflexivity | lia].
Qed.

Lemma fortran_few_rows (coords : matrix F) :
  (length coords <= 1)%nat -> r_ij_fortran coords = Ok [].
Proof.
  destruct coords as [|row [|row' rest]]; simpl length; intros H;
    [reflexivity | reflexivity | lia].
Qed.

(** With 46342 rows [N*N - N] leaves the range of [int]: the size handed to
    [np.zeros] is negative. *)
Lemma size_cython_46342 : size_cython (Int32.wrap 46342) = -1073716337.
Proof. vm_compute. reflexivity. Qed.

Lemma cython_46342 (sched : list Z) (coords : matrix F) :
  shape0 coords = 46342 -> r_ij_cython_sched sched coords = Err ValueError.
Proof.
  intros H. unfold r_ij_cython_sched. rewrite H, size_cython_46342. reflexivity.
Qed.

End Small.

(** ** Loop invariants *)

Lemma for_each_invariant {I St : Type} (Inv : St -> Prop)
      (body : St -> I -> result St) (its : list I) (s s' : St) :
  (forall s1 i s2, Inv s1 -> body s1 i = Ok s2 -> Inv s2) ->
  Inv s -> for_each body its s = Ok s' -> Inv s'.
Proof.
  intros Hbody. revert s. induction its as [|i its IH]; intros s Hs E; simpl in E.
  - inversion E. now subst.
  - destruct (body s i) as [s1|e] eqn:Eb; simpl in E; [|discriminate].
    apply (IH s1); [eapply Hbody; eassumption | exact E].
Qed.

Lemma upd_Forall {F : Type} (P : F -> Prop) (n : nat) (v : F) (r : list F) :
  P v -> Forall P r -> Forall P (upd n v r).
Proof.
  intros Hv Hr. revert n. induction Hr as [|x r Hx Hr IH]; intros n; simpl.
  - constructor.
  - destruct n; constructor; auto.
Qed.

Lemma store_Forall {F : Type} (P : F -> Prop) (r r' : list F) (l : Z) (v : F) :
  P v -> Forall P r -> store r l v = Ok r' -> Forall P r'.
Proof.
  intros Hv Hr E. apply store_inv in E. destruct E as [_ ->].
  now apply upd_Forall.
Qed.

Section Entries.

Context {F : Type} {S : Scalar F}.
Variable P : F -> Prop.
Hypothesis P_zero : P zero.
Hypothesis P_sqrt : forall x, P (sqrt x).

(** Every entry of a vector a kernel returns is a zero of the allocation or
    a square root stored by the loop. *)
Lemma cython_sched_entries (sched : list Z) (coords : matrix F) (r : list F) :
  r_ij_cython_sched sched coords = Ok r -> Forall P r.
Proof.
  unfold r_ij_cython_sched, np_zeros.
  destruct (size_cython (Int32.wrap (shape0 coords)) <? 0); simpl; [discriminate|].
  apply for_each_invariant.
  - intros r1 i r2 H1. unfold row_cython. apply for_each_invariant; [|exact H1].
    intros r3 j r4 H3. unfold body_cython. now apply store_Forall.
  - apply Forall_forall. intros x Hx. apply repeat_spec in Hx. now subst.
Qed.

Lemma fortran_sched_entries (sched : list Z) (coords : matrix F) (r : list F) :
  r_ij_fortran_sched sched coords = Ok r -> Forall P r.
Proof.
  unfold r_ij_fortran_sched, getrij_sched, np_zeros.
  destruct ((shape0 coords * shape0 coords - shape0 coords) / 2 <? 0); simpl;
    [discriminate|].
  apply for_each_invariant.
  - intros r1 i r2 H1. unfold row_getrij. apply for_each_invariant; [|exact H1].
    intros r3 j r4 H3. unfold body_getrij, store1. now apply store_Forall.
  - apply Forall_forall. intros x Hx. apply repeat_spec in Hx. now subst.
Qed.

End Entries.

(** ** At the real numbers *)

Lemma value_distance (coords : matrix R) (i j : Z) :
  value coords (i, j) = distance coords i j.
Proof.
  unfold value, tmp_cython, distance. change (range 0 3) with [0; 1; 2].
  simpl. f_equal. unfold sq. simpl. ring.
Qed.

Lemma three_points_Nx3 : is_Nx3 three_points.
Proof. repeat constructor. Qed.

Lemma three_points_shape : shape0 three_points = 3.
Proof. reflexivity. Qed.

Lemma d3_unit_x : (d3 0 0 0 1 0 0 = 1)%R.
Proof.
  unfold d3, sq. simpl.
  replace (0 + (0 - 1) * (0 - 1) + (0 - 0) * (0 - 0) + (0 - 0) * (0 - 0))%R
    with 1%R by ring.
  apply sqrt_1.
Qed.

Lemma d3_unit_y : (d3 0 0 0 0 1 0 = 1)%R.
Proof.
  unfold d3, sq. simpl.
  replace (0 + (0 - 0) * (0 - 0) + (0 - 1) * (0 - 1) + (0 - 0) * (0 - 0))%R
    with 1%R by ring.
  apply sqrt_1.
Qed.

Lemma d3_diagonal : (d3 1 0 0 0 1 0 = R_sqrt.sqrt 2)%R.
Proof.
  unfold d3, sq. simpl. f_equal. ring.
Qed.

Lemma three_points_cython :
  r_ij_cython three_points = Ok [1; 1; R_sqrt.sqrt 2]%R.
Proof.
  unfold three_points. rewrite cython_three.
  now rewrite d3_unit_x, d3_unit_y, d3_diagonal.
Qed.

Lemma three_points_fortran :
  r_ij_fortran three_points = Ok [1; 1; R_sqrt.sqrt 2]%R.
Proof.
  unfold three_points. rewrite fortran_three.
  now rewrite d3_unit_x, d3_unit_y, d3_diagonal.
Qed.

Lemma rows_46342_Nx3 : is_Nx3 rows_46342.
Proof.
  apply Forall_forall. intros row H. apply repeat_spec in H. now subst.
Qed.

Lemma rows_46342_shape : shape0 rows_46342 = 46342.
Proof.
  unfold shape0, rows_46342. rewrite repeat_length. apply Z2Nat.id. lia.
Qed.

Lemma rows_46342_cython : r_ij_cython rows_46342 = Err ValueError.
Proof. apply cython_46342, rows_46342_shape. Qed.

Lemma rows_46342_fortran : r_ij_fortran rows_46342 = Ok (packed rows_46342).
Proof.
  apply fortran_packed; [apply rows_46342_Nx3 | rewrite rows_46342_shape; lia].
Qed.

(** ** [getrij] on threads *)

Lemma interleave_one {A : Type} (choices : list nat) (t : list A) :
  interleave choices [t] = t.
Proof.
  revert t. induction choices as [|n choices IH]; intros t.
  - simpl. apply app_nil_r.
  - simpl. destruct n as [|n].
    + simpl. destruct t as [|a rest]; [apply IH|].
      simpl. f_equal. apply IH.
    + destruct n; simpl; apply IH.
Qed.

Lemma for_each_flat_map {I J St : Type} (f : St -> J -> result St) (g : I -> list J)
      (its : list I) (s : St) :
  for_each f (flat_map g its) s = for_each (fun s' i => for_each f (g i) s') its s.
Proof.
  revert s. induction its as [|x its IH]; intros s; simpl; [reflexivity|].
  rewrite for_each_app.
  destruct (for_each f (g x) s); simpl; [apply IH | reflexivity].
Qed.

(** A loop on a larger state, seen through a projection, is the loop on the
    projected state when each of its steps is. *)
Lemma for_each_project {I S1 S2 : Type} (f1 : S1 -> I -> result S1)
      (f2 : S2 -> I -> result S2) (proj : S1 -> S2) (Inv : S1 -> Prop) :
  (forall s i, Inv s -> (s' <- f1 s i ;; Ok (proj s')) = f2 (proj s) i) ->
  (forall s i s', Inv s -> f1 s i = Ok s' -> Inv s') ->
  forall its s, Inv s ->
    (s' <- for_each f1 its s ;; Ok (proj s')) = for_each f2 its (proj s).
Proof.
  intros Hstep Hinv its. induction its as [|i its IH]; intros s Hs; simpl.
  - reflexivity.
  - specialize (Hstep s i Hs). specialize (Hinv s i).
    destruct (f1 s i) as [s1|e]; simpl in *; rewrite <- Hstep; simpl.
    + apply IH. now apply Hinv.
    + reflexivity.
Qed.

Section OneThread.

Context {F : Type} {S : Scalar F}.

Lemma pair_stmts_run (coords : list F) (N i j : Z) (s : shared F) :
  sh_ii s = Int32.mul i 3 ->
  (s' <- for_each (exec coords N) (pair_stmts i j) s ;; Ok (sh_r s'))
  = body_getrij coords N i (Int32.mul i 3) (sh_r s) j.
Proof.
  destruct s as [ii jj tmp l r log]. cbn [sh_ii sh_r]. intros ->.
  unfold pair_stmts, body_getrij, tmp_fortran.
  change (do_range 1 3) with [1; 2; 3].
  cbn [map app for_each exec bind fold_left sh_ii sh_jj sh_tmp sh_l sh_r sh_log].
  destruct (store1 r (l_fortran i j N) _); reflexivity.
Qed.

Lemma pair_stmts_keep_ii (coords : list F) (N i j : Z) (s s' : shared F) :
  for_each (exec coords N) (pair_stmts i j) s = Ok s' -> sh_ii s' = sh_ii s.
Proof.
  destruct s as [ii jj tmp l r log].
  unfold pair_stmts. change (do_range 1 3) with [1; 2; 3].
  cbn [map app for_each exec bind sh_ii sh_jj sh_tmp sh_l sh_r sh_log].
  destruct (store1 r (l_fortran i j N) _); cbn [bind]; intros E;
    [inversion E; reflexivity | discriminate].
Qed.

Lemma iteration_stmts_run (coords : list F) (N i : Z) (s : shared F) :
  (s' <- for_each (exec coords N) (iteration_stmts N i) s ;; Ok (sh_r s'))
  = row_getrij coords N (sh_r s) i.
Proof.
  unfold iteration_stmts, row_getrij. cbn [for_each exec bind].
  rewrite for_each_flat_map.
  set (s1 := {| sh_ii := Int32.mul i 3; sh_jj := sh_jj s; sh_tmp := sh_tmp s;
                sh_l := sh_l s; sh_r := sh_r s; sh_log := sh_log s |}).
  change (sh_r s) with (sh_r s1).
  apply (for_each_project
           (fun s' j => for_each (exec coords N) (pair_stmts i j) s')
           (body_getrij coords N i (Int32.mul i 3))
           sh_r (fun s' => sh_ii s' = Int32.mul i 3)).
  - intros s' j Hs'. now apply pair_stmts_run.
  - intros s2 j s3 Hs2 E. apply pair_stmts_keep_ii in E. congruence.
  - reflexivity.
Qed.

(** One thread that runs the iterations [its] is the loop over [its] run
    one iteration after another, whatever the shared variables hold on
    entry. *)
Lemma getrij_omp_one_thread (its : list Z) (choices : list nat)
      (coords : list F) (N M : Z) (s : shared F) :
  (s' <- getrij_omp [its] choices coords N s ;; Ok (sh_r s'))
  = getrij_sched its coords (sh_r s) N M.
Proof.
  unfold getrij_omp, getrij_sched. cbn [map]. rewrite interleave_one.
  unfold thread_stmts. rewrite for_each_flat_map.
  apply (for_each_project
           (fun s' i => for_each (exec coords N) (iteration_stmts N i) s')
           (row_getrij coords N) sh_r (fun _ => True)).
  - intros s' i _. apply iteration_stmts_run.
  - trivial.
  - trivial.
Qed.

Lemma fortran_omp_one_thread (choices : list nat) (coords : matrix F) :
  r_ij_fortran_omp [do_range 0 (Int32.sub (Int32.wrap (shape0 coords)) 1)]
                   choices coords
  = r_ij_fortran coords.
Proof.
  unfold r_ij_fortran_omp, r_ij_fortran, getrij.
  destruct (np_zeros zero ((shape0 coords * shape0 coords - shape0 coords) / 2))
    as [r|e]; [|reflexivity].
  cbn [bind].
  apply (getrij_omp_one_thread _ choices (ravel coords) _ _ (on_entry r)).
Qed.

Lemma fortran_omp_one_thread_packed (choices : list nat) (coords : matrix F) :
  is_Nx3 coords -> shape0 coords <= 46342 ->
  r_ij_fortran_omp [range 0 (shape0 coords)] choices coords = Ok (packed coords).
Proof.
  intros Hwf HN. rewrite <- (fortran_packed coords Hwf HN).
  rewrite <- (fortran_omp_one_thread choices).
  rewrite shape0_wrap by exact HN.
  now rewrite do_rows_exact by (unfold shape0 in *; lia).
Qed.

(** The only failure of the statements is the store outside [r]. *)
Lemma exec_error (coords : list F) (N : Z) (s : shared F) (c : stmt) (e : error) :
  exec coords N s c = Err e -> e = OutOfBounds.
Proof.
  destruct c; cbn [exec]; try discriminate.
  unfold store1, store.
  destruct ((0 <=? sh_l s - 1) && (sh_l s - 1 <? Z.of_nat (length (sh_r s))));
    cbn [bind]; [discriminate|].
  intros E. now inversion E.
Qed.

Lemma for_each_exec_error (coords : list F) (N : Z) (cs : list stmt)
      (s : shared F) (e : error) :
  for_each (exec coords N) cs s = Err e -> e = OutOfBounds.
Proof.
  revert s. induction cs as [|c cs IH]; intros s; cbn [for_each]; [discriminate|].
  destruct (exec coords N s c) as [s1|e1] eqn:E1; cbn [bind].
  - apply IH.
  - intros E. inversion E; subst. now apply exec_error in E1.
Qed.

(** Whatever the threads and the interleaving, [r_ij_fortran] does not
    raise the [ValueError] of [np.zeros]. *)
Lemma fortran_omp_no_value_error (threads : list (list Z)) (choices : list nat)
      (coords : matrix F) :
  r_ij_fortran_omp threads choices coords <> Err ValueError.
Proof.
  unfold r_ij_fortran_omp. set (N := shape0 coords).
  pose proof (half_square_minus N) as HM.
  assert (0 <= N) as HN by (unfold N, shape0; lia).
  unfold np_zeros. destruct (Z.ltb_spec ((N * N - N) / 2) 0) as [Hneg | _]; [nia|].
  cbn [bind].
  destruct (getrij_omp threads choices (ravel coords) (Int32.wrap N) _)
    as [s|e] eqn:E; cbn [bind]; [discriminate|].
  apply for_each_exec_error in E. subst e. discriminate.
Qed.

(** Three threads with one outer iteration each, on three points: thread 0
    runs up to [l = ...] of the pair (0,1), thread 1 then runs its
    iteration to the end, and thread 0 goes on. *)
Lemma getrij_race_three (x0 x1 x2 y0 y1 y2 z0 z1 z2 : F) :
  match getrij_omp [[0]; [1]; [2]] (repeat 0%nat 7 ++ repeat 1%nat 8)
                   (ravel [[x0; x1; x2]; [y0; y1; y2]; [z0; z1; z2]]) 3
                   (on_entry (repeat zero 3))
  with
  | Ok s =>
      sh_log s = [(0, 2, 2); (0, 1, 3); (1, 2, 3)]
      /\ sh_r s = [zero; d3 y0 y1 y2 z0 z1 z2; d3 y0 y1 y2 z0 z1 z2]
  | Err _ => False
  end.
Proof. vm_compute. split; reflexivity. Qed.

End OneThread.

(** ** The reference double loop *)

Lemma row_of_Nx3 (coords : matrix R) (i : Z) :
  is_Nx3 coords -> 0 <= i < shape0 coords ->
  exists a0 a1 a2, nth (Z.to_nat i) coords [] = [a0; a1; a2].
Proof.
  intros Hwf Hi. unfold is_Nx3 in Hwf. rewrite Forall_forall in Hwf.
  assert (In (nth (Z.to_nat i) coords []) coords) as Hin
      by (apply nth_In; unfold shape0 in Hi; lia).
  apply Hwf in Hin.
  destruct (nth (Z.to_nat i) coords []) as [|a0 [|a1 [|a2 [|a3 rest]]]];
    simpl in Hin; try discriminate.
  now exists a0, a1, a2.
Qed.

Lemma reference_nth (coords : matrix R) (i j : Z) :
  0 <= i < shape0 coords -> 0 <= j < shape0 coords ->
  nth (Z.to_nat j) (nth (Z.to_nat i) (reference coords) []) 0%R
  = reference_distance (nth (Z.to_nat i) coords []) (nth (Z.to_nat j) coords []).
Proof.
  intros Hi Hj. unfold reference, shape0 in *.
  rewrite (nth_indep _ [] (map (fun q => reference_distance [] q) coords))
    by (rewrite length_map; lia).
  rewrite (map_nth (fun p => map (fun q => reference_distance p q) coords)).
  rewrite (nth_indep _ 0%R (reference_distance (nth (Z.to_nat i) coords []) []))
    by (rewrite length_map; lia).
  now rewrite (map_nth (fun q => reference_distance (nth (Z.to_nat i) coords []) q)).
Qed.

Lemma reference_distance_rows (coords : matrix R) (i j : Z) :
  is_Nx3 coords -> 0 <= i < shape0 coords -> 0 <= j < shape0 coords ->
  reference_distance (nth (Z.to_nat i) coords []) (nth (Z.to_nat j) coords [])
  = distance coords i j.
Proof.
  intros Hwf Hi Hj. unfold distance, get.
  destruct (row_of_Nx3 coords i Hwf Hi) as (a0 & a1 & a2 & ->).
  destruct (row_of_Nx3 coords j Hwf Hj) as (b0 & b1 & b2 & ->).
  unfold reference_distance, sum_sq_diff. simpl. f_equal. ring.
Qed.

Lemma distance_sym (coords : matrix R) (i j : Z) :
  distance coords i j = distance coords j i.
Proof. unfold distance. f_equal. ring. Qed.

(** * Claims *)

(** C1 (the code breaks it): the claim promises, for every matrix of N rows
    and three columns and every pair i < j, a returned vector whose entry
    at [linindex i j N] is the distance of rows i and j. On a matrix of
    46342 rows [r_ij_cython] returns no vector: the [int] product
    [N*N - N] of line 85 overflows and [np.zeros] raises. *)
Lemma C1_fails_for_46342_rows :
  is_Nx3 rows_46342
  /\ ~ (exists r, r_ij_cython rows_46342 = Ok r
                  /\ nth (Z.to_nat (linindex 0 1 (shape0 rows_46342))) r 0%R
                     = distance rows_46342 0 1).
Proof.
  split; [apply rows_46342_Nx3|].
  intros [r [E _]]. rewrite rows_46342_cython in E. discriminate.
Qed.

(** C2 (the code breaks it): the claim promises an output of length
    N*(N-1)/2 for every N. For N = 46342 [r_ij_cython] returns no vector
    of that length: the size it computes on line 85 is negative. *)
Lemma C2_fails_for_46342_rows :
  ~ (exists r, r_ij_cython rows_46342 = Ok r
               /\ Z.of_nat (length r) = shape0 rows_46342 * (shape0 rows_46342 - 1) / 2).
Proof.
  intros [r [E _]]. rewrite rows_46342_cython in E. discriminate.
Qed.

(** C3 (the code breaks it): the claim makes the index of lines 88 and 172
    a bijection from the pairs i < j < N onto 0 .. N*(N-1)/2 - 1 for every
    N. Evaluated in the 32-bit integers of the code it is not: in [getrij]
    with N = 46343 the pair (46341, 46342) gets the index -1073669995,
    outside 1 .. 1073813653; in [r_ij_cython] with N = 65537, where the
    buffer has 32768 entries, the pairs (0, 1) and (65280, 65409) both get
    slot 0. *)
Theorem C3_index_leaves_range_and_collides :
  l_fortran 46341 46342 46343 = -1073669995
  /\ 46343 * (46343 - 1) / 2 = 1073813653
  /\ size_cython (Int32.wrap 65537) = 32768
  /\ l_cython 0 1 65537 = 0
  /\ l_cython 65280 65409 65537 = 0.
Proof. vm_compute. repeat split; reflexivity. Qed.

(** C4 (the code breaks it): the claim says that no two outer iterations
    store to the same slot. In [getrij] the index [l] is shared by the
    threads: on the three points of the spec, with one outer iteration per
    thread, thread 0 computes [l] for the pair (0,1), thread 1 runs its
    iteration (1,2) to the end, and thread 0 then stores through the [l]
    of thread 1: the stores of the pairs (1,2) and (0,1) both go to r(3),
    and r(1) is never stored. *)
Theorem C4_two_iterations_store_to_one_slot :
  exists s,
    getrij_omp [[0]; [1]; [2]] (repeat 0%nat 7 ++ repeat 1%nat 8)
               (ravel three_points) 3 (on_entry (repeat 0%R 3)) = Ok s
    /\ sh_log s = [(0, 2, 2); (0, 1, 3); (1, 2, 3)].
Proof.
  pose proof (getrij_race_three (S := R_Scalar) 0 0 0 1 0 0 0 1 0)%R as H.
  change (ravel [[0; 0; 0]; [1; 0; 0]; [0; 1; 0]]%R) with (ravel three_points) in H.
  change (@zero R R_Scalar) with 0%R in H.
  destruct (getrij_omp [[0]; [1]; [2]] (repeat 0%nat 7 ++ repeat 1%nat 8)
                       (ravel three_points) 3 (on_entry (repeat 0%R 3)))
    as [s|e]; [|destruct H].
  exists s. split; [reflexivity | apply H].
Qed.

(** C5: on the three points (0,0,0), (1,0,0), (0,1,0) the kernel returns
    [1; 1; sqrt 2], the values sitting at linindex(0,1,3) = 0,
    linindex(0,2,3) = 1 and linindex(1,2,3) = 2. *)
Theorem C5_three_points :
  r_ij_cython three_points = Ok [1; 1; R_sqrt.sqrt 2]%R
  /\ r_ij_fortran three_points = Ok [1; 1; R_sqrt.sqrt 2]%R
  /\ linindex 0 1 3 = 0 /\ linindex 0 2 3 = 1 /\ linindex 1 2 3 = 2
  /\ distance three_points 0 1 = 1%R
  /\ distance three_points 0 2 = 1%R
  /\ distance three_points 1 2 = R_sqrt.sqrt 2.
Proof.
  split; [apply three_points_cython|].
  split; [apply three_points_fortran|].
  repeat (split; [reflexivity|]).
  rewrite <- !value_distance. unfold value, three_points.
  repeat split.
  - apply d3_unit_x.
  - apply d3_unit_y.
  - apply d3_diagonal.
Qed.

(** C6: on a matrix with no row, and on a matrix with one row, the kernels
    return the empty vector and raise nothing. *)
Theorem C6_fewer_than_two_rows (coords : matrix R) :
  (length coords <= 1)%nat ->
  r_ij_cython coords = Ok [] /\ r_ij_fortran coords = Ok [].
Proof.
  intros H. split; [now apply cython_few_rows | now apply fortran_few_rows].
Qed.

Lemma C6_fewer_than_two_rows_witness :
  r_ij_cython [[1; 2; 3]%R] = Ok [] /\ r_ij_fortran [[1; 2; 3]%R] = Ok [].
Proof.
  apply (C6_fewer_than_two_rows [[1; 2; 3]%R]). simpl. lia.
Defined.

(** C7 (the code breaks it): the claim promises, for every matrix and every
    pair of distinct rows, a stored value equal to the distance of the
    reference double loop. On a matrix of 46342 rows [r_ij_cython] stores
    and returns nothing to compare with the reference. *)
Lemma C7_fails_for_46342_rows :
  ~ (exists r,
        r_ij_cython rows_46342 = Ok r
        /\ nth (Z.to_nat (linindex 0 1 (shape0 rows_46342))) r 0%R
           = nth (Z.to_nat 1) (nth (Z.to_nat 0) (reference rows_46342) []) 0%R).
Proof.
  intros [r [E _]]. rewrite rows_46342_cython in E. discriminate.
Qed.

(** C8 (the code breaks it): the claim makes the two kernels agree on every
    input. On a matrix of 46342 rows [r_ij_cython] raises, while
    [r_ij_fortran], which sizes [r] with Python integers, returns the
    packed distances when one thread runs its loop, and raises no
    [ValueError] whatever the threads and their interleaving. *)
Lemma C8_fails_for_46342_rows :
  is_Nx3 rows_46342
  /\ r_ij_cython rows_46342 <> r_ij_fortran rows_46342
  /\ forall threads choices,
       r_ij_cython rows_46342 <> r_ij_fortran_omp threads choices rows_46342.
Proof.
  split; [apply rows_46342_Nx3|]. split.
  - rewrite rows_46342_cython, rows_46342_fortran. discriminate.
  - intros threads choices E. rewrite rows_46342_cython in E.
    symmetry in E. now apply fortran_omp_no_value_error in E.
Qed.

(** C9 (the code breaks it): the claim allows no failure on well-formed
    input. On a well-formed matrix of 46342 rows [r_ij_cython] fails with
    the [ValueError] of [np.zeros]. *)
Lemma C9_fails_for_46342_rows :
  is_Nx3 rows_46342 /\ ~ (exists r, r_ij_cython rows_46342 = Ok r).
Proof.
  split; [apply rows_46342_Nx3|].
  intros [r E]. rewrite rows_46342_cython in E. discriminate.
Qed.

(** C10: every entry of a vector returned by either kernel is
    non-negative. *)
Theorem C10_entries_nonnegative (coords : matrix R) (r : list R) :
  r_ij_cython coords = Ok r \/ r_ij_fortran coords = Ok r ->
  Forall (fun x => 0 <= x)%R r.
Proof.
  intros [E | E].
  - apply (cython_sched_entries (S := R_Scalar) (fun x => 0 <= x)%R
             (Rle_refl 0) sqrt_pos _ _ _ E).
  - apply (fortran_sched_entries (S := R_Scalar) (fun x => 0 <= x)%R
             (Rle_refl 0) sqrt_pos _ _ _ E).
Qed.

Lemma C10_entries_nonnegative_witness :
  Forall (fun x => 0 <= x)%R [1; 1; R_sqrt.sqrt 2]%R.
Proof.
  apply (C10_entries_nonnegative three_points).
  left. apply three_points_cython.
Defined.

(** * Further properties of the kernels *)

(** ** The iteration space *)

Lemma pairs_NoDup (N : Z) : 0 <= N -> NoDup (pairs N).
Proof.
  intros HN. apply (NoDup_map_inv (fun p => linindex (fst p) (snd p) N)).
  rewrite pairs_slots by exact HN. apply count_from_NoDup.
Qed.

(** X1: the loop nest [for i in range(N): for j in range(i+1, N)] runs its
    body once for each pair 0 <= i < j < N and for nothing else,
    N*(N-1)/2 times in all. *)
Theorem X1_loop_nest_visits_each_pair_once (n : nat) :
  let N := Z.of_nat n in
  NoDup (pairs N)
  /\ (forall i j, In (i, j) (pairs N) <-> 0 <= i < j /\ j < N)
  /\ Z.of_nat (length (pairs N)) = N * (N - 1) / 2.
Proof.
  intros N. assert (0 <= N) as HN by (unfold N; lia).
  split; [now apply pairs_NoDup|]. split; [intros i j; apply pairs_In|].
  rewrite pairs_length by exact HN. apply Z2Nat.id.
  pose proof (half_square_minus N). rewrite half_product. nia.
Qed.

(** ** Integer and double index arithmetic *)

(** X2: for all values of the [int] variables [i], [j], [N], also after
    an overflow of the products, the double arithmetic of line 88 is
    exact: the value [int(...)] truncates is the integer
    [a - b / 2 + j - 1], with [a] and [b] the wrapped products [i * (N-1)]
    and [i * (i+1)] and [b] even; [l] is that integer when it fits an
    [int], and [int_min] when it does not. Likewise the size of line 85 is
    the integer half of the wrapped [N*N - N]. *)
Theorem X2_index_arithmetic_in_double_is_exact (i j N : Z) :
  Int32.in_range i -> Int32.in_range j -> Int32.in_range N ->
  Z.even (Int32.mul i (Int32.add i 1)) = true
  /\ l_cython i j N
     = Int32.of_double
         (Int32.mul i (Int32.sub N 1) - Int32.mul i (Int32.add i 1) / 2 + j - 1)
  /\ size_cython N = Int32.sub (Int32.mul N N) N / 2.
Proof.
  intros _ _ _. split; [|split; [apply l_cython_int | apply size_cython_int]].
  unfold Int32.mul, Int32.add.
  rewrite Int32Facts.wrap_even, Z.even_mul, Int32Facts.wrap_even, Z.even_add.
  destruct (Z.even i); reflexivity.
Qed.

Lemma X2_index_arithmetic_in_double_is_exact_witness :
  Z.even (Int32.mul 50000 (Int32.add 50000 1)) = true
  /\ l_cython 50000 50001 125900
     = Int32.of_double
         (Int32.mul 50000 (Int32.sub 125900 1)
          - Int32.mul 50000 (Int32.add 50000 1) / 2 + 50001 - 1)
  /\ size_cython 125900 = Int32.sub (Int32.mul 125900 125900) 125900 / 2.
Proof.
  apply (X2_index_arithmetic_in_double_is_exact 50000 50001 125900);
    unfold Int32.in_range, Int32.int_min, Int32.int_max; lia.
Defined.

(** There the sum is 2897491352, past the range of [int]. *)
Example l_cython_out_of_range : l_cython 50000 50001 125900 = -2147483648.
Proof. reflexivity. Qed.


(** ** Past the 32-bit range *)

Section Overflow.

Context {F : Type} {S : Scalar F}.

Import Int32 Int32Facts.

Lemma shape0_wrap_16 (coords : matrix F) :
  shape0 coords <= 65536 -> wrap (shape0 coords) = shape0 coords.
Proof.
  intros H. apply wrap_small. unfold in_range, int_min, int_max, shape0 in *. lia.
Qed.

Lemma square_minus_wraps (N : Z) :
  46342 <= N <= 65536 -> sub (mul N N) N = N * N - N - 2 ^ 32.
Proof.
  intros HN. unfold sub, mul. apply wrap_unique.
  - unfold in_range, int_min, int_max. nia.
  - destruct (wrap_spec (N * N)) as [k ->]. exists (1 - k). lia.
Qed.

Lemma size_cython_negative (N : Z) :
  46342 <= N <= 65536 -> size_cython N < 0.
Proof.
  intros HN. rewrite size_cython_int, square_minus_wraps by exact HN.
  apply Z.div_lt_upper_bound; [lia | nia].
Qed.

Lemma cython_sched_overflow (sched : list Z) (coords : matrix F) :
  46342 <= shape0 coords <= 65536 ->
  r_ij_cython_sched sched coords = Err ValueError.
Proof.
  intros HN. unfold r_ij_cython_sched. rewrite shape0_wrap_16 by lia.
  pose proof (size_cython_negative _ HN) as Hneg.
  unfold np_zeros. destruct (Z.ltb_spec (size_cython (shape0 coords)) 0); [|lia].
  reflexivity.
Qed.

End Overflow.

(** X3: on every matrix of 46342 to 65536 rows [r_ij_cython] raises the
    [ValueError] of [np.zeros]: [N*N - N] wraps to a negative [int]. *)
Theorem X3_cython_raises_from_46342_to_65536 (coords : matrix R) :
  46342 <= shape0 coords <= 65536 -> r_ij_cython coords = Err ValueError.
Proof. intros HN. unfold r_ij_cython. now apply cython_sched_overflow. Qed.

Lemma X3_cython_raises_from_46342_to_65536_witness :
  r_ij_cython rows_46342 = Err ValueError.
Proof.
  apply (X3_cython_raises_from_46342_to_65536 rows_46342).
  rewrite rows_46342_shape. lia.
Defined.

Lemma for_each_ok_all {I St : Type} (body : St -> I -> result St)
      (its : list I) (s s' : St) :
  for_each body its s = Ok s' ->
  forall i, In i its -> exists s1 s2, body s1 i = Ok s2.
Proof.
  revert s. induction its as [|x its IH]; intros s E i Hi; [destruct Hi|].
  simpl in E. destruct (body s x) as [s1|e] eqn:Eb; simpl in E; [|discriminate].
  destruct Hi as [<- | Hi]; [now exists s, s1 | now apply (IH s1)].
Qed.

Section OverflowFortran.

Context {F : Type} {S : Scalar F}.

Import Int32 Int32Facts.

(** With 46343 to 65536 rows the products of line 172 wrap for the last
    pair, and its index falls 2^31 short. *)
Lemma l_fortran_last_pair (N : Z) :
  46343 <= N <= 65536 ->
  l_fortran (N - 2) (N - 1) N = N * (N - 1) / 2 - 2 ^ 31.
Proof.
  intros HN. unfold l_fortran, mul, sub, add, div.
  pose proof (half_consecutive (N - 2)) as Hh.
  pose proof (half_square_minus N) as HM. rewrite <- half_product in HM.
  set (h := (N - 2) * (N - 2 + 1) / 2) in *.
  set (M := N * (N - 1) / 2) in *.
  assert (M = h + N - 1) as HMh by nia.
  assert (1073767311 <= h <= 2147385345) as Hhb by nia.
  rewrite (wrap_small (N - 1)) by (unfold in_range, int_min, int_max; lia).
  rewrite (wrap_small (N - 2 + 1)) by (unfold in_range, int_min, int_max; lia).
  replace ((N - 2) * (N - 1)) with ((N - 2) * (N - 2 + 1)) by lia.
  assert (wrap ((N - 2) * (N - 2 + 1)) = (h - 2 ^ 31) * 2) as ->.
  { apply wrap_unique; [unfold in_range, int_min, int_max; lia|].
    exists 1. lia. }
  rewrite Z.quot_mul by lia.
  rewrite (wrap_small (h - 2 ^ 31)) by (unfold in_range, int_min, int_max; lia).
  replace ((h - 2 ^ 31) * 2 - (h - 2 ^ 31)) with (h - 2 ^ 31) by lia.
  rewrite (wrap_small (h - 2 ^ 31)) by (unfold in_range, int_min, int_max; lia).
  rewrite (wrap_small (h - 2 ^ 31 + (N - 1))) by (unfold in_range, int_min, int_max; lia).
  rewrite (wrap_small (h - 2 ^ 31 + (N - 1) - 1)) by (unfold in_range, int_min, int_max; lia).
  rewrite wrap_small by (unfold in_range, int_min, int_max; lia).
  lia.
Qed.

Lemma row_getrij_last_fails (coords r : list F) (N : Z) :
  46343 <= N <= 65536 -> row_getrij coords N r (N - 2) = Err OutOfBounds.
Proof.
  intros HN. unfold row_getrij.
  assert (do_range (add (N - 2) 1) (sub N 1) = [N - 1]) as ->.
  { unfold add, sub.
    rewrite !wrap_small by (unfold in_range, int_min, int_max; lia).
    unfold do_range. replace (N - 1 - (N - 2 + 1) + 1) with 1 by lia.
    change (Z.to_nat 1) with 1%nat. unfold count_from. f_equal. lia. }
  unfold for_each, body_getrij, store1.
  rewrite l_fortran_last_pair by exact HN.
  pose proof (half_square_minus N) as HM. rewrite <- half_product in HM.
  unfold store.
  destruct (Z.leb_spec 0 (N * (N - 1) / 2 - 2 ^ 31 - 1)); [nia|].
  reflexivity.
Qed.

Lemma getrij_overflow (coords r r' : list F) (N M : Z) :
  46343 <= N <= 65536 -> getrij coords r N M <> Ok r'.
Proof.
  intros HN E. unfold getrij, getrij_sched in E.
  assert (In (N - 2) (do_range 0 (sub N 1))) as Hin.
  { unfold sub. rewrite wrap_small by (unfold in_range, int_min, int_max; lia).
    rewrite do_range_range. apply range_In. lia. }
  destruct (for_each_ok_all _ _ _ _ E _ Hin) as (r1 & r2 & Erow).
  rewrite row_getrij_last_fails in Erow by exact HN. discriminate.
Qed.

Lemma fortran_overflow (coords : matrix F) (r : list F) :
  46343 <= shape0 coords <= 65536 -> r_ij_fortran coords <> Ok r.
Proof.
  intros HN E. unfold r_ij_fortran in E.
  rewrite shape0_wrap_16 in E by lia.
  destruct (np_zeros zero ((shape0 coords * shape0 coords - shape0 coords) / 2))
    as [r0|e]; [|discriminate].
  unfold bind in E. now apply getrij_overflow in E.
Qed.

(** Neither loop changes the length of the buffer. *)
Lemma store_length (r r' : list F) (l : Z) (v : F) :
  store r l v = Ok r' -> length r' = length r.
Proof. intros E. apply store_inv in E. destruct E as [_ ->]. apply upd_length. Qed.

Lemma body_getrij_length (coords r r' : list F) (N i ii j : Z) :
  body_getrij coords N i ii r j = Ok r' -> length r' = length r.
Proof. unfold body_getrij, store1. apply store_length. Qed.

Lemma row_getrij_length (coords r0 r : list F) (N i : Z) :
  row_getrij coords N r0 i = Ok r -> length r = length r0.
Proof.
  unfold row_getrij.
  apply (for_each_invariant (fun r' : list F => length r' = length r0)).
  - intros r3 j r4 H3 Eb. rewrite <- H3. now apply body_getrij_length in Eb.
  - reflexivity.
Qed.

Lemma getrij_sched_length (sched : list Z) (coords r0 r : list F) (N M : Z) :
  getrij_sched sched coords r0 N M = Ok r -> length r = length r0.
Proof.
  unfold getrij_sched.
  apply (for_each_invariant (fun r' : list F => length r' = length r0)).
  - intros r1 i r2 H1 E. rewrite <- H1. now apply row_getrij_length in E.
  - reflexivity.
Qed.

Lemma fortran_sched_length (sched : list Z) (coords : matrix F) (r : list F) :
  r_ij_fortran_sched sched coords = Ok r ->
  Z.of_nat (length r) = shape0 coords * (shape0 coords - 1) / 2.
Proof.
  unfold r_ij_fortran_sched. rewrite <- half_product.
  set (M := shape0 coords * (shape0 coords - 1) / 2).
  unfold np_zeros. destruct (Z.ltb_spec M 0) as [Hneg | Hpos].
  - unfold bind. discriminate.
  - unfold bind. intros E. apply getrij_sched_length in E.
    rewrite E, repeat_length. lia.
Qed.

End OverflowFortran.

(** X4: on every matrix of 46343 to 65536 rows [r_ij_fortran] returns no
    vector: for the last pair, (N-2, N-1), line 172 computes the index
    N*(N-1)/2 - 2^31, which is below 1, the first index of [r]. *)
Theorem X4_fortran_index_wraps_from_46343_to_65536 (coords : matrix R) :
  46343 <= shape0 coords <= 65536 ->
  l_fortran (shape0 coords - 2) (shape0 coords - 1) (shape0 coords)
  = shape0 coords * (shape0 coords - 1) / 2 - 2 ^ 31
  /\ shape0 coords * (shape0 coords - 1) / 2 - 2 ^ 31 < 1
  /\ forall r, r_ij_fortran coords <> Ok r.
Proof.
  intros HN. split; [now apply l_fortran_last_pair|]. split.
  - pose proof (half_square_minus (shape0 coords)) as HM.
    rewrite <- half_product in HM. nia.
  - intros r. now apply fortran_overflow.
Qed.

Lemma X4_fortran_index_wraps_from_46343_to_65536_witness :
  let coords : matrix R := repeat [0; 0; 0]%R (Z.to_nat 46343) in
  l_fortran (shape0 coords - 2) (shape0 coords - 1) (shape0 coords)
  = shape0 coords * (shape0 coords - 1) / 2 - 2 ^ 31
  /\ shape0 coords * (shape0 coords - 1) / 2 - 2 ^ 31 < 1
  /\ forall r, r_ij_fortran coords <> Ok r.
Proof.
  intros coords. apply (X4_fortran_index_wraps_from_46343_to_65536 coords).
  unfold coords, shape0. rewrite repeat_length. lia.
Defined.

(** X5: whenever [r_ij_fortran] returns a vector, under any order and any
    selection of the outer iterations, its length is N*(N-1)/2, for every
    number of rows N: the wrapper sizes [r] with Python integers and
    [getrij] keeps the length. *)
Theorem X5_fortran_length (sched : list Z) (coords : matrix R) (r : list R) :
  r_ij_fortran coords = Ok r \/ r_ij_fortran_sched sched coords = Ok r ->
  Z.of_nat (length r) = shape0 coords * (shape0 coords - 1) / 2.
Proof.
  intros [E | E]; [|now apply (fortran_sched_length sched)].
  now apply (fortran_sched_length
               (do_range 0 (Int32.sub (Int32.wrap (shape0 coords)) 1))).
Qed.

Lemma X5_fortran_length_witness :
  Z.of_nat (length [1; 1; R_sqrt.sqrt 2]%R)
  = shape0 three_points * (shape0 three_points - 1) / 2.
Proof.
  apply (X5_fortran_length [] three_points).
  left. apply three_points_fortran.
Defined.

(** ** The two kernels, for any arithmetic *)

(** X6: when one thread runs the loop of [getrij], the two kernels return
    the same result on every matrix of N <= 46341 rows and three columns,
    whatever the arithmetic of the scalars: they apply the same operations
    to the same operands in the same order. *)
Theorem X6_kernels_agree_on_one_thread
        {F : Type} {S : Scalar F} (choices : list nat) (coords : matrix F) :
  is_Nx3 coords -> shape0 coords <= 46341 ->
  r_ij_fortran_omp [range 0 (shape0 coords)] choices coords = r_ij_cython coords.
Proof.
  intros Hwf HN.
  rewrite cython_packed, fortran_omp_one_thread_packed by (assumption || lia).
  reflexivity.
Qed.

Lemma X6_kernels_agree_on_one_thread_witness :
  r_ij_fortran_omp [range 0 (shape0 symbolic_points)] [0%nat; 0%nat] symbolic_points
  = r_ij_cython symbolic_points.
Proof.
  apply (X6_kernels_agree_on_one_thread [0%nat; 0%nat] symbolic_points).
  - repeat constructor.
  - vm_compute. discriminate.
Defined.

(** X7: the vector [r_ij_fortran] returns is not determined by the matrix
    when several threads run the loop of [getrij]: on any three points,
    with one outer iteration per thread, there is an interleaving of the
    statements that leaves r(1) at zero and puts the distance of points 1
    and 2 in both r(2) and r(3), where one thread puts the three
    distances. *)
Theorem X7_fortran_result_depends_on_interleaving
        {F : Type} {S : Scalar F} (x0 x1 x2 y0 y1 y2 z0 z1 z2 : F) :
  let coords := [[x0; x1; x2]; [y0; y1; y2]; [z0; z1; z2]] in
  r_ij_fortran_omp [[0]; [1]; [2]] (repeat 0%nat 7 ++ repeat 1%nat 8) coords
  = Ok [zero; d3 y0 y1 y2 z0 z1 z2; d3 y0 y1 y2 z0 z1 z2]
  /\ r_ij_fortran_omp [[0; 1; 2]] [] coords
     = Ok [d3 x0 x1 x2 y0 y1 y2; d3 x0 x1 x2 z0 z1 z2; d3 y0 y1 y2 z0 z1 z2].
Proof. vm_compute. split; reflexivity. Qed.



(** X8: the stores of [r_ij_cython] may be interleaved at will: started
    on the zeroed buffer, the bodies of the inner loop run for the pairs
    i < j in any order leave the vector the kernel returns (N <= 46341). *)
Theorem X8_cython_stores_in_any_order
        {F : Type} {S : Scalar F} (coords : matrix F) (its : list (Z * Z)) :
  shape0 coords <= 46341 -> Permutation its (pairs (shape0 coords)) ->
  exists r,
    r_ij_cython coords = Ok r
    /\ for_each (fun r' p => body_cython coords (shape0 coords) (fst p) r' (snd p))
                its
                (repeat zero (Z.to_nat (shape0 coords * (shape0 coords - 1) / 2)))
       = Ok r.
Proof.
  intros HN Hperm. exists (packed coords).
  split; [now apply cython_packed | now apply cython_stores_any_order].
Qed.

Lemma X8_cython_stores_in_any_order_witness :
  exists r,
    r_ij_cython symbolic_points = Ok r
    /\ for_each (fun r' p => body_cython symbolic_points (shape0 symbolic_points)
                                         (fst p) r' (snd p))
                [(1, 2); (0, 1); (0, 2)]
                (repeat zero (Z.to_nat (shape0 symbolic_points
                                        * (shape0 symbolic_points - 1) / 2)))
       = Ok r.
Proof.
  apply (X8_cython_stores_in_any_order symbolic_points [(1, 2); (0, 1); (0, 2)]).
  - unfold shape0. simpl. lia.
  - change (Permutation ((1, 2) :: [(0, 1); (0, 2)]) ([(0, 1); (0, 2)] ++ [(1, 2)])).
    apply Permutation_cons_append.
Defined.

(** ** The order of the output *)

(** X9: on a matrix of N <= 46341 rows and three columns the vector
    [r_ij_cython] returns lists the distances of the pairs (0,1), (0,2),
    ..., (0,N-1), (1,2), ..., (N-2,N-1) in this order, row after row of the
    upper triangle. *)
Theorem X9_cython_row_major_order (coords : matrix R) :
  is_Nx3 coords -> shape0 coords <= 46341 ->
  r_ij_cython coords
  = Ok (map (fun p => distance coords (fst p) (snd p)) (pairs (shape0 coords))).
Proof.
  intros _ HN. rewrite cython_packed by exact HN. unfold packed. f_equal.
  apply map_ext. intros [i j]. apply value_distance.
Qed.

Lemma X9_cython_row_major_order_witness :
  r_ij_cython three_points
  = Ok (map (fun p => distance three_points (fst p) (snd p))
            (pairs (shape0 three_points))).
Proof.
  apply (X9_cython_row_major_order three_points).
  - repeat constructor.
  - rewrite three_points_shape. lia.
Defined.

(** X10: when one thread runs the loop of [getrij], [r_ij_fortran]
    returns the distances in the same row-major order, for matrices of up
    to 46342 rows of three columns, one row more than [r_ij_cython]
    takes. *)
Theorem X10_fortran_row_major_order_on_one_thread
        (choices : list nat) (coords : matrix R) :
  is_Nx3 coords -> shape0 coords <= 46342 ->
  r_ij_fortran_omp [range 0 (shape0 coords)] choices coords
  = Ok (map (fun p => distance coords (fst p) (snd p)) (pairs (shape0 coords))).
Proof.
  intros Hwf HN. rewrite fortran_omp_one_thread_packed by assumption.
  unfold packed. f_equal. apply map_ext. intros [i j]. apply value_distance.
Qed.

Lemma X10_fortran_row_major_order_on_one_thread_witness :
  r_ij_fortran_omp [range 0 (shape0 three_points)] [] three_points
  = Ok (map (fun p => distance three_points (fst p) (snd p))
            (pairs (shape0 three_points))).
Proof.
  apply (X10_fortran_row_major_order_on_one_thread [] three_points).
  - repeat constructor.
  - rewrite three_points_shape. lia.
Defined.

(** ** [getrij] on a buffer of its caller *)

Section Getrij.

Context {F : Type} {S : Scalar F}.

(** The n-th slot belongs to one pair. *)
Lemma slot_pair (N : Z) (n : nat) :
  0 <= N -> (n < length (pairs N))%nat ->
  exists i j, In (i, j) (pairs N) /\ linindex i j N = Z.of_nat n.
Proof.
  intros HN Hn. destruct (nth n (pairs N) (0, 0)) as [i j] eqn:E.
  exists i, j. split; [rewrite <- E; now apply nth_In|].
  pose proof (pairs_slots N HN) as Hs.
  apply (f_equal (fun l => nth n l (linindex (fst (0, 0)) (snd (0, 0)) N))) in Hs.
  rewrite (map_nth (fun p => linindex (fst p) (snd p) N)), E in Hs.
  unfold range in Hs.
  rewrite count_from_nth in Hs by (rewrite pairs_length in Hn; lia).
  simpl in Hs. lia.
Qed.

(** The stores of all pairs, started on any buffer that is long enough. *)
Lemma stores_packed_into (coords : matrix F) (its : list (Z * Z)) (r0 : list F) :
  let N := shape0 coords in
  Permutation its (pairs N) ->
  (length (packed coords) <= length r0)%nat ->
  for_each (fun r p => store r (linindex (fst p) (snd p) N) (value coords p))
           its r0
  = Ok (packed coords ++ skipn (length (packed coords)) r0).
Proof.
  intros N Hperm Hlen0.
  assert (0 <= N) as HN by (unfold N, shape0; lia).
  pose proof (packed_length coords) as HM. fold N in HM.
  assert (length (packed coords) = length (pairs N)) as HMp
      by (unfold packed; now rewrite length_map).
  set (w := fun p : Z * Z => (linindex (fst p) (snd p) N, value coords p)).
  change (fun r p => store r (linindex (fst p) (snd p) N) (value coords p))
    with (fun r p => write r (w p)).
  rewrite <- (for_each_map write w).
  assert (map fst (map w its) = map (fun p => linindex (fst p) (snd p) N) its)
    as Hfst by (rewrite map_map; reflexivity).
  assert (Permutation (map fst (map w its)) (range 0 (N * (N - 1) / 2))) as Hslots.
  { rewrite Hfst, <- pairs_slots by exact HN. now apply Permutation_map. }
  destruct (writes_ok zero (map w its) r0) as (r' & Hr' & Hlen & Hout & Hin).
  { intros x Hx. apply (in_map fst) in Hx.
    apply (Permutation_in _ Hslots), range_In in Hx. lia. }
  rewrite Hr'. f_equal.
  assert (NoDup (map fst (map w its))) as Hnd.
  { apply (Permutation_NoDup (Permutation_sym Hslots)), count_from_NoDup. }
  specialize (Hin Hnd).
  apply (nth_ext _ _ zero zero).
  { rewrite length_app, length_skipn. lia. }
  intros n Hn.
  destruct (Nat.lt_ge_cases n (length (packed coords))) as [Hlt | Hge].
  - rewrite app_nth1 by exact Hlt.
    destruct (slot_pair N n HN) as (i & j & Hp & Hl); [lia|].
    assert (In (w (i, j)) (map w its)) as Hw.
    { apply in_map. apply (Permutation_in _ (Permutation_sym Hperm)), Hp. }
    specialize (Hin _ Hw). simpl in Hin. rewrite Hl, Nat2Z.id in Hin.
    rewrite Hin. apply pairs_In in Hp.
    rewrite <- (packed_nth coords i j zero) by tauto.
    fold N. now rewrite Hl, Nat2Z.id.
  - rewrite app_nth2 by exact Hge. rewrite nth_skipn.
    replace (length (packed coords) + (n - length (packed coords)))%nat
      with n by lia.
    apply Hout. intros Hx.
    apply (Permutation_in _ Hslots), range_In in Hx. lia.
Qed.

(** In the order of the source, on a buffer that is too short, the first
    store past its end faults. *)
Lemma writes_short (ws : list (Z * F)) (r : list F) (a : Z) :
  map fst ws = count_from a (length ws) ->
  0 <= a <= Z.of_nat (length r) -> Z.of_nat (length r) < a + Z.of_nat (length ws) ->
  for_each write ws r = Err OutOfBounds.
Proof.
  revert r a. induction ws as [|[l v] ws IH]; intros r a Hfst Ha Hlen.
  - simpl in Hlen. lia.
  - simpl in Hfst. inversion Hfst as [[Hl Hrest]]. subst l.
    cbn [for_each]. unfold write at 1. cbn [fst snd].
    destruct (Z.eq_dec a (Z.of_nat (length r))) as [E | E].
    + unfold store.
      destruct (Z.ltb_spec a (Z.of_nat (length r))); [lia|].
      now rewrite andb_false_r.
    + rewrite store_ok by lia. cbn [bind].
      apply (IH _ (a + 1)); rewrite ?upd_length;
        [exact Hrest | lia | simpl length in Hlen; lia].
Qed.

(** [getrij] is the sequence of the stores of all pairs. *)
Lemma getrij_as_stores (coords : matrix F) (r0 : list F) (M0 : Z) :
  is_Nx3 coords -> shape0 coords <= 46342 ->
  getrij (ravel coords) r0 (shape0 coords) M0
  = for_each (fun r p => store r (linindex (fst p) (snd p) (shape0 coords))
                               (value coords p))
             (pairs (shape0 coords)) r0.
Proof.
  intros Hwf HN. unfold getrij, getrij_sched.
  rewrite do_rows_exact by (unfold shape0 in *; lia).
  set (N := shape0 coords) in *.
  rewrite (for_each_ext _
             (fun r i => for_each (fun r' j => store r' (linindex i j N) (value coords (i, j)))
                                  (range (i + 1) N) r)).
  - apply (for_each_nest
             (fun i r' j => store r' (linindex i j N) (value coords (i, j)))
             (fun i => range (i + 1) N)).
  - intros r i Hi. apply range_In in Hi.
    unfold row_getrij. rewrite do_row_exact by lia.
    apply for_each_ext. intros r' j Hj. apply range_In in Hj.
    unfold body_getrij, store1.
    rewrite l_fortran_exact, tmp_fortran_ravel by (assumption || (unfold N in *; lia)).
    f_equal. lia.
Qed.

End Getrij.

(** X11: when one thread runs the loop, [getrij] reads neither [r] nor
    what [ii], [jj], [tmp] and [l] hold on entry: started on any array of
    at least N*(N-1)/2 entries, it overwrites the first N*(N-1)/2 entries
    with the packed distances and leaves the others as they were
    (N <= 46342 rows of three columns). *)
Theorem X11_getrij_overwrites_a_prefix
        {F : Type} {S : Scalar F} (choices : list nat) (coords : matrix F)
        (s : shared F) :
  is_Nx3 coords -> shape0 coords <= 46342 ->
  (length (packed coords) <= length (sh_r s))%nat ->
  Z.of_nat (length (packed coords)) = shape0 coords * (shape0 coords - 1) / 2
  /\ exists s',
       getrij_omp [range 0 (shape0 coords)] choices (ravel coords)
                  (shape0 coords) s = Ok s'
       /\ sh_r s' = packed coords ++ skipn (length (packed coords)) (sh_r s).
Proof.
  intros Hwf HN Hlen. split; [apply packed_length|].
  pose proof (getrij_omp_one_thread (range 0 (shape0 coords)) choices
                (ravel coords) (shape0 coords) 0 s) as H.
  assert (getrij_sched (range 0 (shape0 coords)) (ravel coords) (sh_r s)
                       (shape0 coords) 0
          = Ok (packed coords ++ skipn (length (packed coords)) (sh_r s))) as E.
  { rewrite <- (do_rows_exact (shape0 coords)) by (unfold shape0 in *; lia).
    change (getrij (ravel coords) (sh_r s) (shape0 coords) 0 = 
            Ok (packed coords ++ skipn (length (packed coords)) (sh_r s))).
    rewrite getrij_as_stores by assumption.
    now apply stores_packed_into. }
  rewrite E in H.
  destruct (getrij_omp [range 0 (shape0 coords)] choices (ravel coords)
                       (shape0 coords) s) as [s'|e]; cbn [bind] in H.
  - exists s'. split; [reflexivity|]. now inversion H.
  - discriminate.
Qed.

Lemma X11_getrij_overwrites_a_prefix_witness :
  Z.of_nat (length (packed symbolic_points))
  = shape0 symbolic_points * (shape0 symbolic_points - 1) / 2
  /\ exists s',
       getrij_omp [range 0 (shape0 symbolic_points)] [] (ravel symbolic_points)
                  (shape0 symbolic_points)
                  {| sh_ii := 7; sh_jj := 8; sh_tmp := TVar 9; sh_l := 2;
                     sh_r := [TVar 10; TVar 11; TVar 12; TVar 13; TVar 14];
                     sh_log := [] |} = Ok s'
       /\ sh_r s'
          = packed symbolic_points
            ++ skipn (length (packed symbolic_points))
                     [TVar 10; TVar 11; TVar 12; TVar 13; TVar 14].
Proof.
  apply (X11_getrij_overwrites_a_prefix []  symbolic_points
           {| sh_ii := 7; sh_jj := 8; sh_tmp := TVar 9; sh_l := 2;
              sh_r := [TVar 10; TVar 11; TVar 12; TVar 13; TVar 14];
              sh_log := [] |}).
  - repeat constructor.
  - vm_compute. discriminate.
  - vm_compute. repeat constructor.
Defined.

(** X12: [getrij] does not check the size of [r]: on an array of fewer than
    N*(N-1)/2 entries it fills the array and then stores past its end
    (N <= 46342 rows of three columns). *)
Theorem X12_getrij_stores_past_a_short_buffer
        {F : Type} {S : Scalar F} (coords : matrix F) (r0 : list F) (M0 : Z) :
  is_Nx3 coords -> shape0 coords <= 46342 ->
  Z.of_nat (length r0) < shape0 coords * (shape0 coords - 1) / 2 ->
  getrij (ravel coords) r0 (shape0 coords) M0 = Err OutOfBounds.
Proof.
  intros Hwf HN Hlen. rewrite getrij_as_stores by assumption.
  set (N := shape0 coords) in *.
  assert (0 <= N) as HN0 by (unfold N, shape0; lia).
  set (w := fun p : Z * Z => (linindex (fst p) (snd p) N, value coords p)).
  change (fun r p => store r (linindex (fst p) (snd p) N) (value coords p))
    with (fun r p => write r (w p)).
  rewrite <- (for_each_map write w).
  apply (writes_short _ _ 0).
  - rewrite map_map, length_map. simpl.
    rewrite pairs_slots, pairs_length by exact HN0. unfold range.
    now rewrite Z.sub_0_r.
  - lia.
  - rewrite length_map, pairs_length by exact HN0.
    pose proof (half_square_minus N). rewrite <- half_product in *. nia.
Qed.

Lemma X12_getrij_stores_past_a_short_buffer_witness :
  getrij (ravel symbolic_points) [TZero; TZero] (shape0 symbolic_points) 3
  = Err OutOfBounds.
Proof.
  apply (X12_getrij_stores_past_a_short_buffer symbolic_points [TZero; TZero] 3).
  - repeat constructor.
  - vm_compute. discriminate.
  - vm_compute. reflexivity.
Defined.

(** ** What the result depends on *)

Section Columns.

Context {F : Type} {S : Scalar F}.

(** [r_ij_cython] sees the matrix through its number of rows and the sums
    of the inner loop. *)
Lemma cython_sched_ext (sched : list Z) (c1 c2 : matrix F) :
  shape0 c1 = shape0 c2 ->
  (forall i j, tmp_cython c1 i j = tmp_cython c2 i j) ->
  r_ij_cython_sched sched c1 = r_ij_cython_sched sched c2.
Proof.
  intros HN Htmp. unfold r_ij_cython_sched. rewrite HN.
  destruct (np_zeros zero (size_cython (Int32.wrap (shape0 c2)))) as [r|e];
    [|reflexivity].
  unfold bind. apply for_each_ext. intros r1 i _.
  unfold row_cython. apply for_each_ext. intros r2 j _.
  unfold body_cython. now rewrite Htmp.
Qed.

Lemma get_first_columns (coords : matrix F) (i k : Z) :
  0 <= k < 3 -> get (map (firstn 3) coords) i k = get coords i k.
Proof.
  intros Hk. unfold get.
  change (@nil F) with (firstn 3 (@nil F)) at 1.
  rewrite (map_nth (firstn 3)), nth_firstn.
  destruct (Nat.ltb_spec (Z.to_nat k) 3); [reflexivity | lia].
Qed.

Lemma cython_first_columns (coords : matrix F) :
  r_ij_cython (map (firstn 3) coords) = r_ij_cython coords.
Proof.
  unfold r_ij_cython.
  assert (shape0 (map (firstn 3) coords) = shape0 coords) as HN
      by (unfold shape0; now rewrite length_map).
  rewrite HN. apply cython_sched_ext; [exact HN|].
  intros i j. unfold tmp_cython. change (range 0 3) with [0; 1; 2].
  cbn [fold_left]. now rewrite !get_first_columns by lia.
Qed.

End Columns.

(** X13: [r_ij_cython] reads the first three columns only: on a matrix
    whose rows have three columns or more it returns, or raises, what it
    does on the matrix cut down to its first three columns. *)
Theorem X13_cython_reads_three_columns
        {F : Type} {S : Scalar F} (coords : matrix F) :
  Forall (fun row : list F => (3 <= length row)%nat) coords ->
  r_ij_cython coords = r_ij_cython (map (firstn 3) coords).
Proof. intros _. symmetry. apply cython_first_columns. Qed.

Lemma X13_cython_reads_three_columns_witness :
  r_ij_cython [[TVar 0; TVar 1; TVar 2; TVar 3]; [TVar 4; TVar 5; TVar 6; TVar 7]]
  = r_ij_cython
      (map (firstn 3)
           [[TVar 0; TVar 1; TVar 2; TVar 3]; [TVar 4; TVar 5; TVar 6; TVar 7]]).
Proof.
  apply (X13_cython_reads_three_columns
           [[TVar 0; TVar 1; TVar 2; TVar 3]; [TVar 4; TVar 5; TVar 6; TVar 7]]).
  repeat constructor.
Defined.

(** ** Over the reals: the result as a distance *)

Lemma get_translate (t : list R) (coords : matrix R) (i k : Z) :
  is_Nx3 coords -> length t = 3%nat -> 0 <= i < shape0 coords -> 0 <= k < 3 ->
  get (translate t coords) i k = (get coords i k + nth (Z.to_nat k) t 0)%R.
Proof.
  intros Hwf Ht Hi Hk. unfold get, translate.
  change (@nil R) with (map (fun xt : R * R => (fst xt + snd xt)%R)
                            (combine (@nil R) t)) at 1.
  rewrite (map_nth (fun row => map (fun xt : R * R => (fst xt + snd xt)%R)
                                   (combine row t))).
  destruct (row_of_Nx3 coords i Hwf Hi) as (a0 & a1 & a2 & ->).
  destruct t as [|t0 [|t1 [|t2 [|t3 t]]]]; try discriminate.
  assert (k = 0 \/ k = 1 \/ k = 2) as [-> | [-> | ->]] by lia; reflexivity.
Qed.

Lemma distance_translate (t : list R) (coords : matrix R) (i j : Z) :
  is_Nx3 coords -> length t = 3%nat ->
  0 <= i < shape0 coords -> 0 <= j < shape0 coords ->
  distance (translate t coords) i j = distance coords i j.
Proof.
  intros Hwf Ht Hi Hj. unfold distance.
  rewrite !get_translate by (assumption || lia). f_equal. ring.
Qed.

(** X14: over the reals the result does not depend on the origin: moving
    all N <= 46341 points by one vector leaves the vector [r_ij_cython]
    returns unchanged. *)
Theorem X14_translation_invariance (t : list R) (coords : matrix R) :
  is_Nx3 coords -> length t = 3%nat -> shape0 coords <= 46341 ->
  exists r, r_ij_cython coords = Ok r /\ r_ij_cython (translate t coords) = Ok r.
Proof.
  intros Hwf Ht HN.
  assert (shape0 (translate t coords) = shape0 coords) as HNt
      by (unfold shape0, translate; now rewrite length_map).
  exists (packed coords). split; [now apply cython_packed|].
  rewrite cython_packed by lia. f_equal. unfold packed. rewrite HNt.
  apply map_ext_in. intros [i j] Hp. apply pairs_In in Hp.
  rewrite !value_distance. apply distance_translate; (assumption || lia).
Qed.

Lemma X14_translation_invariance_witness :
  exists r, r_ij_cython three_points = Ok r
            /\ r_ij_cython (translate [5; -2; 7]%R three_points) = Ok r.
Proof.
  apply (X14_translation_invariance [5; -2; 7]%R three_points).
  - repeat constructor.
  - reflexivity.
  - rewrite three_points_shape. lia.
Defined.

Lemma distance_same_point (coords : matrix R) (i j : Z) :
  is_Nx3 coords -> 0 <= i < shape0 coords -> 0 <= j < shape0 coords ->
  nth (Z.to_nat i) coords [] = nth (Z.to_nat j) coords [] ->
  distance coords i j = 0%R.
Proof.
  intros Hwf Hi Hj E. unfold distance, get. rewrite E.
  destruct (row_of_Nx3 coords j Hwf Hj) as (b0 & b1 & b2 & ->).
  change (Z.to_nat 0) with 0%nat. change (Z.to_nat 1) with 1%nat.
  change (Z.to_nat 2) with 2%nat. cbn [nth].
  replace ((b0 - b0) ^ 2 + (b1 - b1) ^ 2 + (b2 - b2) ^ 2)%R with 0%R by ring.
  apply sqrt_0.
Qed.

(** X15: for an N x 3 matrix with N <= 46341, when rows i < j hold the same
    point the entry of the returned vector for the pair is zero. *)
Theorem X15_same_point_gives_zero_entry (coords : matrix R) (i j : Z) :
  is_Nx3 coords -> shape0 coords <= 46341 ->
  0 <= i < j -> j < shape0 coords ->
  nth (Z.to_nat i) coords [] = nth (Z.to_nat j) coords [] ->
  exists r,
    r_ij_cython coords = Ok r
    /\ nth (Z.to_nat (linindex i j (shape0 coords))) r 0%R = 0%R.
Proof.
  intros Hwf HN Hij HjN E. exists (packed coords).
  split; [now apply cython_packed|].
  rewrite packed_nth, value_distance by assumption.
  apply distance_same_point; (assumption || lia).
Qed.

Lemma X15_same_point_gives_zero_entry_witness :
  exists r,
    r_ij_cython [[1; 2; 3]; [4; 5; 6]; [1; 2; 3]]%R = Ok r
    /\ nth (Z.to_nat (linindex 0 2 (shape0 [[1; 2; 3]; [4; 5; 6]; [1; 2; 3]]%R)))
           r 0%R = 0%R.
Proof.
  apply (X15_same_point_gives_zero_entry [[1; 2; 3]; [4; 5; 6]; [1; 2; 3]]%R 0 2).
  - repeat constructor.
  - unfold shape0. simpl. lia.
  - lia.
  - unfold shape0. simpl. lia.
  - reflexivity.
Defined.

(** ** [r_ij_cython] below the overflow *)

Section Bijection.

Import Int32 Int32Facts.

Lemma l_fortran_l_cython (i j N : Z) :
  0 <= i < j -> j < N -> N <= 46341 -> l_fortran i j N = l_cython i j N + 1.
Proof.
  intros Hij HjN HN. now rewrite l_fortran_exact, l_cython_exact by lia.
Qed.

End Bijection.

(** X16: on a matrix of N <= 46341 rows and three columns [r_ij_cython]
    returns a vector of length N*(N-1)/2 whose entry at [linindex i j N]
    is, for every pair i < j, the distance of rows i and j. *)
Theorem X16_cython_entry_is_distance (coords : matrix R) (i j : Z) :
  is_Nx3 coords -> shape0 coords <= 46341 ->
  0 <= i < j -> j < shape0 coords ->
  exists r,
    r_ij_cython coords = Ok r
    /\ Z.of_nat (length r) = shape0 coords * (shape0 coords - 1) / 2
    /\ nth (Z.to_nat (linindex i j (shape0 coords))) r 0%R = distance coords i j.
Proof.
  intros Hwf HN Hij HjN. exists (packed coords).
  split; [now apply cython_packed|]. split; [apply packed_length|].
  rewrite packed_nth by assumption. apply value_distance.
Qed.

Lemma X16_cython_entry_is_distance_witness :
  exists r,
    r_ij_cython three_points = Ok r
    /\ Z.of_nat (length r) = shape0 three_points * (shape0 three_points - 1) / 2
    /\ nth (Z.to_nat (linindex 1 2 (shape0 three_points))) r 0%R
       = distance three_points 1 2.
Proof.
  apply (X16_cython_entry_is_distance three_points 1 2).
  - repeat constructor.
  - rewrite three_points_shape. lia.
  - lia.
  - rewrite three_points_shape. lia.
Defined.

(** X17: for N <= 46341 the index the kernels compute in 32-bit integers
    is a bijection from the pairs 0 <= i < j < N onto 0 .. N*(N-1)/2 - 1:
    [l_cython] stays in that range, has no collision and leaves no gap,
    and the 1-based [l_fortran] is [l_cython + 1]. *)
Theorem X17_kernel_index_bijection (N : Z) :
  0 <= N <= 46341 ->
  (forall i j, 0 <= i < j -> j < N ->
               0 <= l_cython i j N < N * (N - 1) / 2
               /\ l_fortran i j N = l_cython i j N + 1)
  /\ (forall i1 j1 i2 j2,
         0 <= i1 < j1 -> j1 < N -> 0 <= i2 < j2 -> j2 < N ->
         l_cython i1 j1 N = l_cython i2 j2 N -> i1 = i2 /\ j1 = j2)
  /\ (forall l, 0 <= l < N * (N - 1) / 2 ->
                exists i j, 0 <= i < j /\ j < N /\ l_cython i j N = l).
Proof.
  intros HN. split; [|split].
  - intros i j Hij HjN. split; [|apply l_fortran_l_cython; lia].
    rewrite l_cython_exact by lia. now apply linindex_bounds.
  - intros i1 j1 i2 j2 H1 HN1 H2 HN2 E.
    rewrite !l_cython_exact in E by lia. now apply (linindex_inj i1 j1 i2 j2 N).
  - intros l Hl.
    assert (In l (map (fun p => linindex (fst p) (snd p) N) (pairs N))) as Hin.
    { rewrite pairs_slots by lia. apply range_In. lia. }
    apply in_map_iff in Hin. destruct Hin as [[i j] [E Hp]].
    apply pairs_In in Hp. exists i, j. simpl in E.
    rewrite l_cython_exact by lia. tauto.
Qed.

Lemma X17_kernel_index_bijection_witness :
  (forall i j, 0 <= i < j -> j < 5 ->
               0 <= l_cython i j 5 < 5 * (5 - 1) / 2
               /\ l_fortran i j 5 = l_cython i j 5 + 1)
  /\ (forall i1 j1 i2 j2,
         0 <= i1 < j1 -> j1 < 5 -> 0 <= i2 < j2 -> j2 < 5 ->
         l_cython i1 j1 5 = l_cython i2 j2 5 -> i1 = i2 /\ j1 = j2)
  /\ (forall l, 0 <= l < 5 * (5 - 1) / 2 ->
                exists i j, 0 <= i < j /\ j < 5 /\ l_cython i j 5 = l).
Proof. apply (X17_kernel_index_bijection 5). lia. Defined.

(** X18: on a matrix of N <= 46341 rows and three columns, for every two
    distinct rows i and j, the value [r_ij_cython] returns at the slot of
    (min i j, max i j) is the distance the reference double loop computes
    for (i, j). *)
Theorem X18_cython_agrees_with_reference (coords : matrix R) (i j : Z) :
  is_Nx3 coords -> shape0 coords <= 46341 ->
  0 <= i < shape0 coords -> 0 <= j < shape0 coords -> i <> j ->
  exists r,
    r_ij_cython coords = Ok r
    /\ nth (Z.to_nat (linindex (Z.min i j) (Z.max i j) (shape0 coords))) r 0%R
       = nth (Z.to_nat j) (nth (Z.to_nat i) (reference coords) []) 0%R.
Proof.
  intros Hwf HN Hi Hj Hne. exists (packed coords).
  split; [apply cython_packed; lia|].
  rewrite packed_nth, value_distance by lia.
  rewrite reference_nth, reference_distance_rows by assumption.
  destruct (Z.lt_ge_cases i j) as [L | L].
  - now rewrite Z.min_l, Z.max_r by lia.
  - rewrite Z.min_r, Z.max_l by lia. apply distance_sym.
Qed.

Lemma X18_cython_agrees_with_reference_witness :
  exists r,
    r_ij_cython three_points = Ok r
    /\ nth (Z.to_nat (linindex (Z.min 2 0) (Z.max 2 0) (shape0 three_points))) r 0%R
       = nth (Z.to_nat 0) (nth (Z.to_nat 2) (reference three_points) []) 0%R.
Proof.
  apply (X18_cython_agrees_with_reference three_points 2 0).
  - repeat constructor.
  - rewrite three_points_shape. lia.
  - rewrite three_points_shape. lia.
  - rewrite three_points_shape. lia.
  - lia.
Defined.

(** X19: on a matrix of N <= 46341 rows and three columns [r_ij_cython]
    returns a vector, and the same one under every order in which
    [prange] may run the outer iterations. *)
Theorem X19_cython_any_schedule (coords : matrix R) (sched : list Z) :
  is_Nx3 coords -> shape0 coords <= 46341 ->
  Permutation sched (range 0 (shape0 coords)) ->
  exists r, r_ij_cython coords = Ok r /\ r_ij_cython_sched sched coords = Ok r.
Proof.
  intros Hwf HN Hperm. exists (packed coords).
  split; [apply cython_packed; lia | now apply cython_sched_packed].
Qed.

Lemma X19_cython_any_schedule_witness :
  exists r, r_ij_cython three_points = Ok r
            /\ r_ij_cython_sched [2; 1; 0] three_points = Ok r.
Proof.
  apply (X19_cython_any_schedule three_points [2; 1; 0]).
  - repeat constructor.
  - rewrite three_points_shape. lia.
  - rewrite three_points_shape.
    change (Permutation (rev [0; 1; 2]) [0; 1; 2]).
    apply Permutation_sym, Permutation_rev.
Defined.
